(** * preptools/prep.py: request construction, confirmation and RPC dispatch

    A shallow embedding of [preptools/prep.py].  Python objects are records,
    dictionaries and the argparse namespace are finite maps with string keys,
    and every function that prints, reads a line, raises or talks to a
    collaborator is a computation in a state-and-exception monad whose state
    holds the console and a log of the calls made on the collaborators. *)

From Stdlib Require Import ZArith String.
From stdpp Require Import base gmap strings list fin_maps.

#[local] Set Warnings "-register-all,-notation-for-abbreviation".
#[local] Open Scope string_scope.
#[local] Open Scope list_scope.
#[local] Open Scope Z_scope.

(** ** Python values *)

Inductive pyval : Type :=
| VNone
| VBool (b : bool)
| VInt (z : Z)
| VStr (s : string)
| VDict (d : gmap string pyval).

(** A dict, and the attributes of an [argparse.Namespace]. *)
Notation dict := (gmap string pyval).

(** Truth value testing, as [if x:] and [not x] apply it. *)
Definition truthy (v : pyval) : bool :=
  match v with
  | VNone => false
  | VBool b => b
  | VInt z => negb (Z.eqb z 0)
  | VStr s => negb (String.eqb s "")
  | VDict d => negb (Nat.eqb (size d) 0)
  end.

(** [x is None] *)
Definition is_None (v : pyval) : bool :=
  match v with VNone => true | _ => false end.

(** ** Exceptions *)

Inductive exn : Type :=
| KeyStoreException (message : pyval)   (* iconsdk.exception; [e.args[0]] is its message *)
| SystemExit (code : Z)                 (* raised by [sys.exit(code)] *)
| TypeError (msg : string)
| KeyError (key : string)
| AttributeError (name : string)
| EOFError
| Error (name : string) (detail : pyval). (* any other exception of a collaborator *)

Inductive outcome (A : Type) : Type :=
| Ret (a : A)
| Raise (e : exn).
Arguments Ret {A} a.
Arguments Raise {A} e.

(** ** State and exceptions *)

Definition SE (S A : Type) : Type := S → outcome A * S.

#[global] Instance SE_ret {S} : MRet (SE S) := λ A a s, (Ret a, s).
#[global] Instance SE_bind {S} : MBind (SE S) := λ A B f m s,
  match m s with
  | (Ret a, s') => f a s'
  | (Raise e, s') => (Raise e, s')
  end.

Definition raise {S A} (e : exn) : SE S A := λ s, (Raise e, s).
Definition of_outcome {S A} (o : outcome A) : SE S A := λ s, (o, s).

(** [try: m except E as e: handler(e)]: [handler] answers [None] for the
    exceptions the clause does not catch. *)
Definition try_except {S A} (m : SE S A) (handler : exn → option (SE S A)) : SE S A :=
  λ s, match m s with
       | (Ret a, s') => (Ret a, s')
       | (Raise e, s') =>
           match handler e with
           | Some h => h s'
           | None => (Raise e, s')
           end
       end.

(** ** The console *)

Inductive output : Type :=
| OutTitle (title : string) (column : pyval)  (* utils.print_title(title, column) *)
| OutDict (content : pyval)                   (* utils.print_dict(content) *)
| OutPrint (v : pyval)                        (* print(v) *)
| OutPrompt (prompt : string).                (* the prompt of input() *)

Record Console : Type := { stdout : list output; stdin : list string }.

Notation IO := (SE Console).

Definition write (o : output) : IO pyval :=
  λ c, (Ret VNone, {| stdout := stdout c ++ [o]; stdin := stdin c |}).

Definition print (v : pyval) : IO pyval := write (OutPrint v).

(** [input(prompt)]: writes the prompt, reads one line without its newline;
    [EOFError] at the end of the input. *)
Definition input (prompt : string) : IO string :=
  λ c, let out := stdout c ++ [OutPrompt prompt] in
       match stdin c with
       | [] => (Raise EOFError, {| stdout := out; stdin := [] |})
       | line :: rest => (Ret line, {| stdout := out; stdin := rest |})
       end.

(** A callback of the interception slot, [callable(dict)]: it prints and reads
    the console and answers a value or raises.  The calls on the wallet and
    on the RPC client are the dispatcher's. *)
Definition Callback : Type := pyval → IO pyval.

(** ** iconsdk objects *)

(** The object [CallTransactionBuilder().....build()] returns. *)
Module CallTransaction.
Record t : Type := {
    from_ : pyval;
    to : pyval;
    step_limit : pyval;
    version : pyval;
    nid : pyval;
    method : pyval;
    params : pyval;
    value : pyval
  }.
End CallTransaction.

(** Each setter stores one attribute and returns the builder. *)
Module CallTransactionBuilder.
Module T := CallTransaction.
Definition t : Type := T.t.
Definition new : t := T.Build_t VNone VNone VNone VNone VNone VNone VNone VNone.
Definition from_ (x : pyval) (b : t) : t :=
    T.Build_t x (T.to b) (T.step_limit b) (T.version b) (T.nid b) (T.method b)
      (T.params b) (T.value b).
Definition to (x : pyval) (b : t) : t :=
    T.Build_t (T.from_ b) x (T.step_limit b) (T.version b) (T.nid b) (T.method b)
      (T.params b) (T.value b).
Definition step_limit (x : pyval) (b : t) : t :=
    T.Build_t (T.from_ b) (T.to b) x (T.version b) (T.nid b) (T.method b)
      (T.params b) (T.value b).
Definition version (x : pyval) (b : t) : t :=
    T.Build_t (T.from_ b) (T.to b) (T.step_limit b) x (T.nid b) (T.method b)
      (T.params b) (T.value b).
Definition nid (x : pyval) (b : t) : t :=
    T.Build_t (T.from_ b) (T.to b) (T.step_limit b) (T.version b) x (T.method b)
      (T.params b) (T.value b).
Definition method (x : pyval) (b : t) : t :=
    T.Build_t (T.from_ b) (T.to b) (T.step_limit b) (T.version b) (T.nid b) x
      (T.params b) (T.value b).
Definition params (x : pyval) (b : t) : t :=
    T.Build_t (T.from_ b) (T.to b) (T.step_limit b) (T.version b) (T.nid b)
      (T.method b) x (T.value b).
Definition value (x : pyval) (b : t) : t :=
    T.Build_t (T.from_ b) (T.to b) (T.step_limit b) (T.version b) (T.nid b)
      (T.method b) (T.params b) x.
Definition build (b : t) : CallTransaction.t := b.
End CallTransactionBuilder.

(** The object [CallBuilder().....build()] returns. *)
Module Call.
Record t : Type := {
    from_ : pyval;
    to : pyval;
    method : pyval;
    params : pyval
  }.
End Call.

Module CallBuilder.
Module T := Call.
Definition t : Type := T.t.
Definition new : t := T.Build_t VNone VNone VNone VNone.
Definition from_ (x : pyval) (b : t) : t :=
    T.Build_t x (T.to b) (T.method b) (T.params b).
Definition to (x : pyval) (b : t) : t :=
    T.Build_t (T.from_ b) x (T.method b) (T.params b).
Definition method (x : pyval) (b : t) : t :=
    T.Build_t (T.from_ b) (T.to b) x (T.params b).
Definition params (x : pyval) (b : t) : t :=
    T.Build_t (T.from_ b) (T.to b) (T.method b) x.
Definition build (b : t) : Call.t := b.
End CallBuilder.

(** Method chaining: [b.f(x).g(y)] is [b |> f x |> g y]. *)
Notation "b |> f" := (f b) (at level 45, left associativity, only parsing).

(** A wallet: its address, and the signature it gives a transaction (or the
    exception signing raises). *)
Record KeyWallet : Type := {
  get_address : pyval;
  sign : CallTransaction.t → outcome pyval
}.

Module SignedTransaction.
Record t : Type := {
    transaction : CallTransaction.t;
    signature : pyval
  }.
End SignedTransaction.

(** The RPC client: what each of its methods answers (or raises). *)
Record IconService : Type := {
  send_transaction : SignedTransaction.t → bool → outcome pyval;
  call : Call.t → bool → outcome pyval;
  get_transaction_result : pyval → bool → outcome pyval;
  get_transaction : pyval → bool → outcome pyval
}.

(** ** The world: console and call log *)

Inductive event : Type :=
| EvHook (content : pyval)                                   (* the callback is invoked *)
| EvSign (tx : CallTransaction.t) (signer : pyval)           (* SignedTransaction(tx, wallet) *)
| EvSend (stx : SignedTransaction.t) (full_response : bool)  (* service.send_transaction *)
| EvCall (c : Call.t) (full_response : bool)                 (* service.call *)
| EvTxResult (tx_hash : pyval) (full_response : bool)        (* service.get_transaction_result *)
| EvTx (tx_hash : pyval) (full_response : bool)              (* service.get_transaction *)
| EvLoad (keystore_path password : pyval).                   (* KeyWallet.load *)

Record World : Type := { console : Console; log : list event }.

Notation M := (SE World).

Definition liftIO {A} (m : IO A) : M A :=
  λ w, let (r, c) := m (console w) in (r, {| console := c; log := log w |}).

Definition emit (e : event) : M unit :=
  λ w, (Ret tt, {| console := console w; log := log w ++ [e] |}).

(** Calling a callback object. *)
Definition invoke (f : Callback) (content : pyval) : M pyval :=
  emit (EvHook content);; liftIO (f content).

(** Calling whatever the slot holds: [None] is not callable. *)
Definition call_object (f : option Callback) (content : pyval) : M pyval :=
  match f with
  | Some h => invoke h content
  | None => raise (TypeError "'NoneType' object is not callable")
  end.

(** [SignedTransaction(transaction, wallet)] signs on construction. *)
Definition SignedTransaction_init (transaction : CallTransaction.t) (wallet : KeyWallet)
  : M SignedTransaction.t :=
  emit (EvSign transaction (get_address wallet));;
  signature ← of_outcome (sign wallet transaction);
  mret {| SignedTransaction.transaction := transaction;
          SignedTransaction.signature := signature |}.

Definition rpc_send_transaction (service : IconService) (stx : SignedTransaction.t)
    (full_response : bool) : M pyval :=
  emit (EvSend stx full_response);; of_outcome (send_transaction service stx full_response).

Definition rpc_call (service : IconService) (c : Call.t) (full_response : bool) : M pyval :=
  emit (EvCall c full_response);; of_outcome (call service c full_response).

Definition rpc_get_transaction_result (service : IconService) (tx_hash : pyval)
    (full_response : bool) : M pyval :=
  emit (EvTxResult tx_hash full_response);;
  of_outcome (get_transaction_result service tx_hash full_response).

Definition rpc_get_transaction (service : IconService) (tx_hash : pyval)
    (full_response : bool) : M pyval :=
  emit (EvTx tx_hash full_response);;
  of_outcome (get_transaction service tx_hash full_response).

(** ** What the module imports

    [..utils.constants], [..utils.preptools_config] and [..utils.utils] are
    not part of this file's source; their constants and functions are
    parameters.  [print_title] and [print_dict] appear as the output items
    [OutTitle] and [OutDict]. *)
Class Utils : Type := {
  ZERO_ADDRESS : pyval;
  EOA_ADDRESS : pyval;
  COLUMN : pyval;
  get_default_config : dict;
  get_url : pyval → pyval
}.

(** What iconsdk, the file system and the terminal provide: the dict view of
    a request, the client for a URL, the wallet of a keystore file, the JSON
    object stored in a file, and the password [getpass.getpass(prompt)]
    obtains.  [getpass] prompts and reads on the controlling terminal, which
    is no part of the console, and falls back to the standard streams only
    without a terminal: what it returns or raises, and what it does to the
    console, is the platform's. *)
Class Platform : Type := {
  tx_to_dict : CallTransaction.t → pyval;
  call_to_dict : Call.t → pyval;
  new_IconService : pyval → IconService;      (* IconService(HTTPProvider(url)) *)
  KeyWallet_load : pyval → pyval → outcome KeyWallet;
  json_load_file : pyval → outcome dict;      (* open(path), json.load *)
  getpass : string → IO string                (* getpass.getpass(prompt) *)
}.

Section Printing.
Context `{Utils}.

Definition print_title (title : string) (column : pyval) : IO pyval :=
  write (OutTitle title column).

Definition print_dict (content : pyval) : IO pyval := write (OutDict content).

Definition _print_request (title : string) (content : pyval) : IO pyval :=
  print_title title COLUMN;;
  print_dict content;;
  print (VStr "");;
  mret VNone.

End Printing.

(** ** class TxHandler *)
Module TxHandler.
Section TxHandler.
Context `{Platform}.

Record t : Type := {
  _icon_service : IconService;
  _nid : pyval;
  _on_send_request : option Callback
}.

Definition __init__ (service : IconService) (nid : pyval)
    (on_send_request : option Callback) : t :=
  {| _icon_service := service; _nid := nid; _on_send_request := on_send_request |}.

(** [if self._on_send_request:] holds for a callable and fails for [None]. *)
Definition _call_on_send_request (self : t) (content : pyval) : M pyval :=
  match _on_send_request self with
  | Some f => invoke f content
  | None => mret (VBool false)
  end.

Definition _call_tx (self : t) (owner : KeyWallet) (to : pyval) (method : pyval)
    (params : pyval) (limit : pyval) (value : option pyval) : M pyval :=
  let value := default (VInt 0) value in
  let transaction :=
    CallTransactionBuilder.new
    |> CallTransactionBuilder.from_ (get_address owner)
    |> CallTransactionBuilder.to to
    |> CallTransactionBuilder.step_limit limit
    |> CallTransactionBuilder.version (VInt 3)
    |> CallTransactionBuilder.nid (_nid self)
    |> CallTransactionBuilder.method method
    |> CallTransactionBuilder.params params
    |> CallTransactionBuilder.value value
    |> CallTransactionBuilder.build in
  ret ← _call_on_send_request self (tx_to_dict transaction);
  if negb (truthy ret) then mret VNone
  else
    signed ← SignedTransaction_init transaction owner;
    rpc_send_transaction (_icon_service self) signed true.

Definition call (self : t) (owner : KeyWallet) (to : pyval) (method : pyval)
    (params : option pyval) (limit : option pyval) (value : option pyval) : M pyval :=
  let params := default VNone params in
  let limit := default (VInt 0x50000000) limit in
  let value := default (VInt 0) value in
  _call_tx self owner to method params limit (Some value).

End TxHandler.
End TxHandler.

(** ** class PrepListener *)
Module PrepListener.

Record t : Type := { _on_send_request : option Callback }.

Definition __init__ : t := {| _on_send_request := None |}.

Definition set_on_send_request (self : t) (func : option Callback) : t :=
  {| _on_send_request := func |}.

Definition on_send_request (self : t) : option Callback := _on_send_request self.

End PrepListener.

(** ** class PrepWriter(PrepListener) *)
Module PrepWriter.
Section PrepWriter.
Context `{Utils} `{Platform}.

Record t : Type := {
  super : PrepListener.t;
  _icon_service : IconService;
  _owner : KeyWallet;
  _nid : pyval
}.

Definition __init__ (service : IconService) (nid : pyval) (owner : KeyWallet) : t :=
  {| super := PrepListener.__init__;
     _icon_service := service; _owner := owner; _nid := nid |}.

(** [set_on_send_request] and [on_send_request] are the inherited ones. *)
Definition set_on_send_request (self : t) (func : option Callback) : t :=
  {| super := PrepListener.set_on_send_request (super self) func;
     _icon_service := _icon_service self; _owner := _owner self; _nid := _nid self |}.

Definition on_send_request (self : t) : option Callback :=
  PrepListener.on_send_request (super self).

Definition _create_tx_handler (self : t) : TxHandler.t :=
  TxHandler.__init__ (_icon_service self) (_nid self) (on_send_request self).

Definition _call (self : t) (method : pyval) (params : pyval)
    (step_limit : option pyval) (value : option pyval) : M pyval :=
  let step_limit := default (VInt 0x10000000) step_limit in
  let value := default (VInt 0) value in
  let tx_handler := _create_tx_handler self in
  TxHandler.call tx_handler (_owner self) ZERO_ADDRESS method
    (Some params) (Some step_limit) (Some value).

Definition register_prep (self : t) (params : pyval) : M pyval :=
  let method := VStr "registerPRep" in
  _call self method params None (Some (VInt (2000 * 10 ^ 18))).

Definition unregister_prep (self : t) : M pyval :=
  let method := VStr "unregisterPRep" in
  _call self method (VDict ∅) None None.

Definition set_prep (self : t) (params : pyval) : M pyval :=
  let method := VStr "setPRep" in
  _call self method params None None.

Definition set_governance_variables (self : t) (params : pyval) : M pyval :=
  let method := VStr "setGovernanceVariables" in
  _call self method params None None.

End PrepWriter.
End PrepWriter.

(** ** class PrepReader(PrepListener) *)
Module PrepReader.
Section PrepReader.
Context `{Utils} `{Platform}.

Record t : Type := {
  super : PrepListener.t;
  _icon_service : IconService;
  _nid : pyval;
  _from : pyval
}.

Definition __init__ (service : IconService) (nid : pyval) (address : option pyval) : t :=
  let address := default EOA_ADDRESS address in
  {| super := PrepListener.__init__;
     _icon_service := service; _nid := nid; _from := address |}.

(** [set_on_send_request] and [on_send_request] are the inherited ones. *)
Definition set_on_send_request (self : t) (func : option Callback) : t :=
  {| super := PrepListener.set_on_send_request (super self) func;
     _icon_service := _icon_service self; _nid := _nid self; _from := _from self |}.

Definition on_send_request (self : t) : option Callback :=
  PrepListener.on_send_request (super self).

Definition _call (self : t) (method : pyval) (params : option pyval) : M pyval :=
  let params := default VNone params in
  let call :=
    CallBuilder.new
    |> CallBuilder.from_ (_from self)
    |> CallBuilder.to ZERO_ADDRESS
    |> CallBuilder.method method
    |> CallBuilder.params params
    |> CallBuilder.build in
  call_object (on_send_request self) (call_to_dict call);;
  rpc_call (_icon_service self) call true.

Definition _tx_result (self : t) (tx_hash : pyval) : M pyval :=
  rpc_get_transaction_result (_icon_service self) tx_hash true.

Definition _tx_by_hash (self : t) (tx_hash : pyval) : M pyval :=
  rpc_get_transaction (_icon_service self) tx_hash true.

Definition get_prep (self : t) (address : pyval) : M pyval :=
  let params := VDict {[ "address" := address ]} in
  _call self (VStr "getPRep") (Some params).

Definition get_preps (self : t) (params : pyval) : M pyval :=
  _call self (VStr "getPReps") (Some params).

Definition get_tx_result (self : t) (tx_hash : pyval) : M pyval :=
  _tx_result self tx_hash.

Definition get_tx_by_hash (self : t) (tx_hash : pyval) : M pyval :=
  _tx_by_hash self tx_hash.

End PrepReader.
End PrepReader.

(** ** Module-level functions *)
Section Factory.
Context `{Utils} `{Platform}.

(** [hasattr(args, attr)] and [getattr(args, attr)] on the namespace. *)
Definition hasattr (args : dict) (attr : string) : bool :=
  bool_decide (is_Some (args !! attr)).

Definition getattr {S} (args : dict) (attr : string) : SE S pyval :=
  match args !! attr with
  | Some v => mret v
  | None => raise (AttributeError attr)
  end.

(** [conf[attr]] *)
Definition getitem {S} (conf : dict) (key : string) : SE S pyval :=
  match conf !! key with
  | Some v => mret v
  | None => raise (KeyError key)
  end.

Definition _replace_attribute {S} (attr : string) (args : dict) (conf : dict)
  : SE S pyval :=
  if hasattr args attr then
    v ← getattr args attr;
    if negb (is_None v) then getattr args attr else getitem conf attr
  else getitem conf attr.

Definition _get_common_args (args : dict) : M (pyval * pyval * pyval) :=
  let conf := get_default_config in
  conf ←
    (if hasattr args "config" && negb (is_None (default VNone (args !! "config")))
     then
       path ← getattr args "config";
       tmp_conf ← of_outcome (json_load_file path);
       (* for k in tmp_conf: conf[k] = tmp_conf[k] *)
       mret (map_fold (λ k v conf, <[k := v]> conf) conf tmp_conf)
     else mret conf);
  url ← _replace_attribute "url" args conf;
  let url := get_url url in
  nid ← _replace_attribute "nid" args conf;
  keystore_path ← _replace_attribute "keystore" args conf;
  mret (url, nid, keystore_path).

Definition _confirm_callback (content : pyval) (yes : pyval) : IO pyval :=
  _print_request "Request" content;;
  if negb (truthy yes) then
    ret ← input "> Continue? [Y/n]";
    if String.eqb ret "n" then mret (VBool false)
    else mret (VBool true)
  else mret (VBool true).

Definition create_reader (url : pyval) (nid : pyval) : PrepReader.t :=
  let url := get_url url in
  let icon_service := new_IconService url in
  PrepReader.__init__ icon_service nid None.

Definition create_reader_by_args (args : dict) : M PrepReader.t :=
  common ← _get_common_args args;
  let '(url, nid, _) := common in
  let reader := create_reader url nid in
  let callback : Callback := _print_request "Request" in
  let reader := PrepReader.set_on_send_request reader (Some callback) in
  mret reader.

Definition sys_exit {A} (code : Z) : M A := raise (SystemExit code).

Definition load_wallet (keystore_path password : pyval) : M KeyWallet :=
  emit (EvLoad keystore_path password);;
  of_outcome (KeyWallet_load keystore_path password).

Definition create_writer (url : pyval) (nid : pyval) (keystore_path : pyval)
    (password : pyval) : M PrepWriter.t :=
  let url := get_url url in
  let icon_service := new_IconService url in
  owner_wallet ←
    try_except (load_wallet keystore_path password)
      (λ e, match e with
            | KeyStoreException args0 => Some (liftIO (print args0);; sys_exit 1)
            | _ => None
            end);
  mret (PrepWriter.__init__ icon_service nid owner_wallet).

Definition create_writer_by_args (args : dict) : M PrepWriter.t :=
  common ← _get_common_args args;
  let '(url, nid, keystore_path) := common in
  password ← getattr args "password";
  let yes := VBool false in
  let yes := if hasattr args "yes" then default yes (args !! "yes") else yes in
  password ←
    (if is_None password
     then p ← liftIO (getpass "> Password: "); mret (VStr p)
     else mret password);
  writer ← create_writer url nid keystore_path password;
  let callback : Callback := λ content, _confirm_callback content yes in
  let writer := PrepWriter.set_on_send_request writer (Some callback) in
  mret writer.

Definition create_icon_service (url : pyval) : IconService :=
  let url := get_url url in
  new_IconService url.

End Factory.

(** ** The four write operations, as one family *)

Inductive WriteOp : Type :=
| RegisterPrep (params : pyval)
| UnregisterPrep
| SetPrep (params : pyval)
| SetGovernanceVariables (params : pyval).

Section Observations.
Context `{Utils} `{Platform}.

Definition run_write_op (self : PrepWriter.t) (op : WriteOp) : M pyval :=
  match op with
  | RegisterPrep params => PrepWriter.register_prep self params
  | UnregisterPrep => PrepWriter.unregister_prep self
  | SetPrep params => PrepWriter.set_prep self params
  | SetGovernanceVariables params => PrepWriter.set_governance_variables self params
  end.

(** The request of each write operation, as the table of the design gives
    it: governance method, parameters and attached value. *)
Definition write_method (op : WriteOp) : string :=
  match op with
  | RegisterPrep _ => "registerPRep"
  | UnregisterPrep => "unregisterPRep"
  | SetPrep _ => "setPRep"
  | SetGovernanceVariables _ => "setGovernanceVariables"
  end.

Definition write_params (op : WriteOp) : pyval :=
  match op with
  | RegisterPrep params | SetPrep params | SetGovernanceVariables params => params
  | UnregisterPrep => VDict ∅
  end.

Definition write_value (op : WriteOp) : Z :=
  match op with
  | RegisterPrep _ => 2000 * 10 ^ 18
  | _ => 0
  end.

Definition write_envelope (self : PrepWriter.t) (op : WriteOp) : CallTransaction.t :=
  {| CallTransaction.from_ := get_address (PrepWriter._owner self);
     CallTransaction.to := ZERO_ADDRESS;
     CallTransaction.step_limit := VInt 0x10000000;
     CallTransaction.version := VInt 3;
     CallTransaction.nid := PrepWriter._nid self;
     CallTransaction.method := VStr (write_method op);
     CallTransaction.params := write_params op;
     CallTransaction.value := VInt (write_value op) |}.

(** The calls a computation adds to the log. *)
Definition new_events {A} (m : M A) (w : World) : list event :=
  drop (length (log w)) (log (m w).2).

Definition is_hook (e : event) : bool :=
  match e with EvHook _ => true | _ => false end.
Definition is_sign (e : event) : bool :=
  match e with EvSign _ _ => true | _ => false end.
Definition is_send (e : event) : bool :=
  match e with EvSend _ _ => true | _ => false end.
Definition is_load (e : event) : bool :=
  match e with EvLoad _ _ => true | _ => false end.
(** The calls that go to the network. *)
Definition is_network (e : event) : bool :=
  match e with
  | EvSend _ _ | EvCall _ _ | EvTxResult _ _ | EvTx _ _ => true
  | _ => false
  end.

Definition count (p : event → bool) (l : list event) : nat :=
  length (List.filter p l).

(** An event that carries the envelope [tx]. *)
Definition carries (tx : CallTransaction.t) (e : event) : Prop :=
  match e with
  | EvHook content => content = tx_to_dict tx
  | EvSign t _ => t = tx
  | EvSend stx _ => SignedTransaction.transaction stx = tx
  | _ => False
  end.

Definition with_log (c : Console) (l : list event) : World :=
  {| console := c; log := l |}.

(** Running [m] from [w] shows the envelope [tx] and no other: every call it
    logs carries [tx], and with a callback in the slot the first call hands
    it the dict view of [tx]. *)
Definition builds (m : M pyval) (slot : option Callback) (w : World)
    (tx : CallTransaction.t) : Prop :=
  Forall (carries tx) (new_events m w) ∧
  (∀ h, slot = Some h → head (new_events m w) = Some (EvHook (tx_to_dict tx))).

(** What [_print_request("Request", content)] writes. *)
Definition request_lines (content : pyval) : list output :=
  [OutTitle "Request" COLUMN; OutDict content; OutPrint (VStr "")].

(** The query [PrepReader._call(method, params)] builds. *)
Definition read_envelope (self : PrepReader.t) (method params : pyval) : Call.t :=
  {| Call.from_ := PrepReader._from self;
     Call.to := ZERO_ADDRESS;
     Call.method := method;
     Call.params := params |}.

(** The [yes] that [create_writer_by_args] hands to [_confirm_callback]. *)
Definition yes_flag (args : dict) : pyval := default (VBool false) (args !! "yes").

(** Running the read [m] from [w] calls the callback [h] once, with the dict
    view of the query [c], calls neither the wallet nor the keystore, and,
    whatever value [h] returns, goes on to [service.call(c, True)] and
    returns its answer. *)
Definition notifies_then_queries (m : M pyval) (h : Callback) (service : IconService)
    (c : Call.t) (w : World) : Prop :=
  let new := new_events m w in
  count is_hook new = 1%nat ∧
  head new = Some (EvHook (call_to_dict c)) ∧
  count is_sign new = 0%nat ∧
  count is_load new = 0%nat ∧
  (∀ v con, h (call_to_dict c) (console w) = (Ret v, con) →
     m w = (call service c true,
            with_log con (log w ++ [EvHook (call_to_dict c); EvCall c true]))).

(** A call on the RPC client that asks for the full response. *)
Definition asks_full_response (e : event) : Prop :=
  match e with
  | EvSend _ full_response | EvCall _ full_response
  | EvTxResult _ full_response | EvTx _ full_response => full_response = true
  | _ => True
  end.

(** The envelope [TxHandler.call] builds from its arguments and defaults. *)
Definition handler_envelope (self : TxHandler.t) (owner : KeyWallet)
    (to method : pyval) (params limit value : option pyval) : CallTransaction.t :=
  {| CallTransaction.from_ := get_address owner;
     CallTransaction.to := to;
     CallTransaction.step_limit := default (VInt 0x50000000) limit;
     CallTransaction.version := VInt 3;
     CallTransaction.nid := TxHandler._nid self;
     CallTransaction.method := method;
     CallTransaction.params := default VNone params;
     CallTransaction.value := default (VInt 0) value |}.

(** The callback [create_writer_by_args] registers. *)
Definition confirm_with (args : dict) : Callback :=
  λ content, _confirm_callback content (yes_flag args).

(** ** Configuration layers, as the design words them

    Built-in defaults, then the optional JSON config file, then the values
    of the command line: an override wins, [None] or absent means the
    underlying value. *)

(** The value the command line gives an attribute, if it gives one. *)
Definition cli_value (args : dict) (attr : string) : option pyval :=
  match args !! attr with
  | Some VNone | None => None
  | Some v => Some v
  end.

Definition overlay (override underlying : option pyval) : option pyval :=
  match override with
  | Some v => Some v
  | None => underlying
  end.

Definition resolved (args file : dict) (attr : string) : option pyval :=
  overlay (cli_value args attr)
    (overlay (file !! attr) (get_default_config !! attr)).

(** The config file layer: the object of the file [--config] names, nothing
    without the option. *)
Definition config_file (args : dict) : outcome dict :=
  match cli_value args "config" with
  | Some path => json_load_file path
  | None => Ret ∅
  end.

Definition resolved_common_args (args : dict) : outcome (pyval * pyval * pyval) :=
  match config_file args with
  | Raise e => Raise e
  | Ret file =>
      match resolved args file "url" with
      | None => Raise (KeyError "url")
      | Some url =>
          match resolved args file "nid" with
          | None => Raise (KeyError "nid")
          | Some nid =>
              match resolved args file "keystore" with
              | None => Raise (KeyError "keystore")
              | Some keystore_path => Ret (get_url url, nid, keystore_path)
              end
          end
      end
  end.

End Observations.

(** ** A test double for every collaborator *)
Module Demo.

Definition utils : Utils :=
  {| ZERO_ADDRESS := VStr "cx0000000000000000000000000000000000000000";
     EOA_ADDRESS := VStr "hx0000000000000000000000000000000000000000";
     COLUMN := VInt 80;
     get_default_config := {[ "url" := VStr "A"; "nid" := VInt 1 ]};
     get_url := λ url, url |}.

Definition wallet : KeyWallet :=
  {| get_address := VStr "hx1111111111111111111111111111111111111111";
     sign := λ tx, Ret (VStr "signature") |}.

Definition service : IconService :=
  {| send_transaction := λ stx full, Ret (VStr "0xa1b2");
     call := λ c full, Ret (VDict {[ "name" := VStr "node" ]});
     get_transaction_result := λ tx_hash full, Ret (VDict {[ "status" := VInt 1 ]});
     get_transaction := λ tx_hash full, Ret (VDict {[ "txHash" := tx_hash ]}) |}.

Definition platform : Platform :=
  {| tx_to_dict := λ tx,
       VDict {[ "from_" := CallTransaction.from_ tx; "to" := CallTransaction.to tx;
                "step_limit" := CallTransaction.step_limit tx;
                "version" := CallTransaction.version tx;
                "nid" := CallTransaction.nid tx; "method" := CallTransaction.method tx;
                "params" := CallTransaction.params tx;
                "value" := CallTransaction.value tx ]};
     call_to_dict := λ c,
       VDict {[ "from_" := Call.from_ c; "to" := Call.to c;
                "method" := Call.method c; "params" := Call.params c ]};
     new_IconService := λ url, service;
     KeyWallet_load := λ path password,
       match password with
       | VStr "secret" => Ret wallet
       | _ => Raise (KeyStoreException (VStr "Wrong password"))
       end;
     json_load_file := λ path, Ret {[ "url" := VStr "B" ]};
     (* a terminal at which the operator types the password *)
     getpass := λ prompt c, (Ret "secret", c) |}.

(** The same platform without a terminal: [getpass] reads the standard
    input. *)
Definition headless : Platform :=
  {| tx_to_dict := @tx_to_dict platform;
     call_to_dict := @call_to_dict platform;
     new_IconService := @new_IconService platform;
     KeyWallet_load := @KeyWallet_load platform;
     json_load_file := @json_load_file platform;
     getpass := λ prompt c,
       match stdin c with
       | [] => (Raise EOFError, c)
       | line :: rest => (Ret line, {| stdout := stdout c; stdin := rest |})
       end |}.

(** A wallet that cannot sign, and a writer that owns it. *)
Definition locked_wallet : KeyWallet :=
  {| get_address := VStr "hx3333333333333333333333333333333333333333";
     sign := λ tx, Raise (Error "DataTypeException" (VStr "Cannot sign")) |}.

Definition approve : Callback := λ content, mret (VBool true).
Definition decline : Callback := λ content, mret (VBool false).

Definition writer : PrepWriter.t :=
  PrepWriter.__init__ service (VInt 3) wallet.

Definition reader : PrepReader.t :=
  @PrepReader.__init__ utils service (VInt 3) None.

Definition approving_writer : PrepWriter.t :=
  PrepWriter.set_on_send_request writer (Some approve).

Definition declining_writer : PrepWriter.t :=
  PrepWriter.set_on_send_request writer (Some decline).

Definition locked_writer : PrepWriter.t :=
  PrepWriter.set_on_send_request
    (PrepWriter.__init__ service (VInt 3) locked_wallet) (Some approve).

Definition printer : Callback := @_print_request utils "Request".

Definition printing_reader : PrepReader.t :=
  PrepReader.set_on_send_request reader (Some printer).

Definition world0 : World :=
  {| console := {| stdout := []; stdin := ["n"; ""] |}; log := [] |}.

(** [Namespace(config="conf.json", nid=2, url=None, keystore="ks.json",
    password="secret", yes=False)] *)
Definition args : dict :=
  {[ "config" := VStr "conf.json"; "nid" := VInt 2; "url" := VNone;
     "keystore" := VStr "ks.json"; "password" := VStr "secret";
     "yes" := VBool false ]}.

(** The sessions of [args], and the world once the keystore is loaded. *)
Definition session_writer (args : dict) : PrepWriter.t :=
  PrepWriter.set_on_send_request (PrepWriter.__init__ service (VInt 2) wallet)
    (Some (@confirm_with utils args)).

Definition session_reader : PrepReader.t :=
  PrepReader.set_on_send_request (@PrepReader.__init__ utils service (VInt 2) None)
    (Some printer).

Definition loaded (w : World) : World :=
  {| console := console w; log := log w ++ [EvLoad (VStr "ks.json") (VStr "secret")] |}.

Definition args_yes : dict := <[ "yes" := VBool true ]> args.

Definition args_ask_password : dict := <[ "password" := VNone ]> args.

End Demo.

(** * Properties *)

Section Properties.
Context `{Utils} `{Platform}.

Lemma drop_log_app (l new : list event) : drop (length l) (l ++ new) = new.
Proof. by rewrite drop_app_length. Qed.

(** What a write operation does, by the state of the slot, the answer of the
    callback and the result of signing. *)
Lemma run_write_op_eq (self : PrepWriter.t) (op : WriteOp) (w : World) :
  run_write_op self op w =
  match PrepWriter.on_send_request self with
  | None => (Ret VNone, w)
  | Some h =>
      let tx := write_envelope self op in
      let content := tx_to_dict tx in
      match h content (console w) with
      | (Raise e, con) => (Raise e, with_log con (log w ++ [EvHook content]))
      | (Ret v, con) =>
          if truthy v then
            let signer := get_address (PrepWriter._owner self) in
            match sign (PrepWriter._owner self) tx with
            | Raise e =>
                (Raise e, with_log con (log w ++ [EvHook content; EvSign tx signer]))
            | Ret sig =>
                let stx := SignedTransaction.Build_t tx sig in
                (send_transaction (PrepWriter._icon_service self) stx true,
                 with_log con
                   (log w ++ [EvHook content; EvSign tx signer; EvSend stx true]))
            end
          else (Ret VNone, with_log con (log w ++ [EvHook content]))
      end
  end.
Proof.
  destruct w as [con0 log0].
  destruct op; cbv [run_write_op PrepWriter.register_prep PrepWriter.unregister_prep
    PrepWriter.set_prep PrepWriter.set_governance_variables PrepWriter._call
    PrepWriter._create_tx_handler TxHandler.call TxHandler._call_tx
    TxHandler._call_on_send_request TxHandler.__init__
    TxHandler._on_send_request TxHandler._icon_service TxHandler._nid default];
    destruct (PrepWriter.on_send_request self) as [h|]; try reflexivity.
  all: cbv [invoke emit liftIO mbind mret SE_bind SE_ret console log
    write_envelope write_method write_params write_value with_log
    CallTransactionBuilder.build CallTransactionBuilder.value
    CallTransactionBuilder.params CallTransactionBuilder.method
    CallTransactionBuilder.nid CallTransactionBuilder.version
    CallTransactionBuilder.step_limit CallTransactionBuilder.to
    CallTransactionBuilder.from_ CallTransactionBuilder.new id
    CallTransaction.from_ CallTransaction.to CallTransaction.step_limit
    CallTransaction.version CallTransaction.nid CallTransaction.method
    CallTransaction.params CallTransaction.value].
  all: match goal with
       | f : Callback |- context [?g ?c ?k] =>
           constr_eq f g; destruct (g c k) as [[v|e] con]
       end; [|reflexivity].
  all: match goal with |- context [truthy ?v] => destruct (truthy v) end;
    cbn [negb]; [|reflexivity].
  all: cbv [SignedTransaction_init rpc_send_transaction emit of_outcome
    mbind mret SE_bind SE_ret console log].
  all: match goal with |- context [sign ?o ?t] => destruct (sign o t) as [sig|e] end.
  all: rewrite <- ?app_assoc; reflexivity.
Qed.

Lemma write_events_eq (self : PrepWriter.t) (op : WriteOp) (w : World) :
  let tx := write_envelope self op in
  let content := tx_to_dict tx in
  let signer := get_address (PrepWriter._owner self) in
  new_events (run_write_op self op) w =
  match PrepWriter.on_send_request self with
  | None => []
  | Some h =>
      match h content (console w) with
      | (Raise e, _) => [EvHook content]
      | (Ret v, _) =>
          if truthy v then
            match sign (PrepWriter._owner self) tx with
            | Raise e => [EvHook content; EvSign tx signer]
            | Ret sig =>
                [EvHook content; EvSign tx signer;
                 EvSend (SignedTransaction.Build_t tx sig) true]
            end
          else [EvHook content]
      end
  end.
Proof.
  intros tx content signer. unfold new_events.
  rewrite run_write_op_eq.
  destruct (PrepWriter.on_send_request self) as [h|]; cbn zeta.
  - fold tx content signer.
    destruct (h content (console w)) as [[v|e] con]; [destruct (truthy v)|];
      [destruct (sign (PrepWriter._owner self) tx)| |];
      cbn [snd with_log log]; apply drop_log_app.
  - cbn [snd]. by rewrite drop_all.
Qed.

Lemma write_builds_envelope (self : PrepWriter.t) (op : WriteOp) (w : World) :
  builds (run_write_op self op) (PrepWriter.on_send_request self) w
    (write_envelope self op).
Proof.
  unfold builds. rewrite write_events_eq. cbn zeta.
  destruct (PrepWriter.on_send_request self) as [h|].
  - split.
    + destruct (h _ (console w)) as [[v|e] con]; [destruct (truthy v)|];
        [destruct (sign _ _)| |]; repeat constructor.
    + intros h' _.
      destruct (h _ (console w)) as [[v|e] con]; [destruct (truthy v)|];
        [destruct (sign _ _)| |]; reflexivity.
  - split; [constructor | intros h' [=]].
Qed.

(** C1. When the callback in the slot answers a true value for the envelope
    of a write operation (and signing returns), the operation signs the
    envelope once, calls [send_transaction] once with the signed envelope and
    [full_response=True], and returns what the client answered, unchanged. *)
Theorem write_approved_signed_and_sent_once
    (self : PrepWriter.t) (op : WriteOp) (w : World)
    (h : Callback) (v : pyval) (con : Console) (sig : pyval) :
  PrepWriter.on_send_request self = Some h →
  h (tx_to_dict (write_envelope self op)) (console w) = (Ret v, con) →
  truthy v = true →
  sign (PrepWriter._owner self) (write_envelope self op) = Ret sig →
  let tx := write_envelope self op in
  let stx := SignedTransaction.Build_t tx sig in
  let new := new_events (run_write_op self op) w in
  (run_write_op self op w).1
    = send_transaction (PrepWriter._icon_service self) stx true ∧
  new = [EvHook (tx_to_dict tx);
         EvSign tx (get_address (PrepWriter._owner self));
         EvSend stx true] ∧
  count is_hook new = 1%nat ∧ count is_sign new = 1%nat ∧ count is_send new = 1%nat.
Proof.
  intros Hslot Hh Hv Hsig tx stx new. subst tx stx new.
  rewrite write_events_eq, run_write_op_eq. cbn zeta.
  rewrite Hslot, Hh, Hv, Hsig.
  repeat split; reflexivity.
Qed.

(** C2. When the callback answers a false value for the envelope, the write
    operation signs nothing, sends nothing, raises nothing and returns
    [None]. *)
Theorem write_declined_not_sent
    (self : PrepWriter.t) (op : WriteOp) (w : World)
    (h : Callback) (v : pyval) (con : Console) :
  PrepWriter.on_send_request self = Some h →
  h (tx_to_dict (write_envelope self op)) (console w) = (Ret v, con) →
  truthy v = false →
  let new := new_events (run_write_op self op) w in
  (run_write_op self op w).1 = Ret VNone ∧
  new = [EvHook (tx_to_dict (write_envelope self op))] ∧
  count is_sign new = 0%nat ∧ count is_send new = 0%nat ∧
  count is_network new = 0%nat.
Proof.
  intros Hslot Hh Hv new. subst new.
  rewrite write_events_eq, run_write_op_eq. cbn zeta.
  rewrite Hslot, Hh, Hv.
  repeat split; reflexivity.
Qed.

(** C3. With nothing in the slot of a writer, [_call_on_send_request] answers
    [False] without calling anything, and every write operation returns
    [None] with nothing signed, nothing sent and nothing printed. *)
Theorem write_without_hook_skipped (self : PrepWriter.t) :
  PrepWriter.on_send_request self = None →
  (∀ content w,
     TxHandler._call_on_send_request (PrepWriter._create_tx_handler self) content w
     = (Ret (VBool false), w)) ∧
  (∀ op w,
     run_write_op self op w = (Ret VNone, w) ∧
     new_events (run_write_op self op) w = []).
Proof.
  intros Hslot. split.
  - intros content w.
    unfold TxHandler._call_on_send_request, PrepWriter._create_tx_handler. cbn.
    by rewrite Hslot.
  - intros op w. rewrite write_events_eq, run_write_op_eq. cbn zeta.
    by rewrite Hslot.
Qed.

(** C4. Each of the four write operations builds one envelope, whose [to]
    is [ZERO_ADDRESS], the governance address, whose [nid] is the network id
    of the session, whose sender is the address of the session's wallet and
    whose version is 3: it is the envelope handed to the callback, signed
    and sent. *)
Theorem write_envelope_routing (self : PrepWriter.t) (op : WriteOp) (w : World) :
  ∃ tx : CallTransaction.t,
    CallTransaction.to tx = ZERO_ADDRESS ∧
    CallTransaction.nid tx = PrepWriter._nid self ∧
    CallTransaction.from_ tx = get_address (PrepWriter._owner self) ∧
    CallTransaction.version tx = VInt 3 ∧
    builds (run_write_op self op) (PrepWriter.on_send_request self) w tx.
Proof.
  exists (write_envelope self op).
  repeat split; try reflexivity; apply write_builds_envelope.
Qed.

(** C5. [register_prep] builds its envelope with value 2000 * 10^18 whatever
    the params; [unregister_prep], [set_prep] and [set_governance_variables]
    build theirs with value 0; all four with step limit 0x10000000. *)
Theorem write_envelope_value_and_limit
    (self : PrepWriter.t) (params : pyval) (w : World) :
  let slot := PrepWriter.on_send_request self in
  (∃ tx, CallTransaction.value tx = VInt 2000000000000000000000 ∧
         CallTransaction.step_limit tx = VInt 0x10000000 ∧
         builds (PrepWriter.register_prep self params) slot w tx) ∧
  (∃ tx, CallTransaction.value tx = VInt 0 ∧
         CallTransaction.step_limit tx = VInt 0x10000000 ∧
         builds (PrepWriter.unregister_prep self) slot w tx) ∧
  (∃ tx, CallTransaction.value tx = VInt 0 ∧
         CallTransaction.step_limit tx = VInt 0x10000000 ∧
         builds (PrepWriter.set_prep self params) slot w tx) ∧
  (∃ tx, CallTransaction.value tx = VInt 0 ∧
         CallTransaction.step_limit tx = VInt 0x10000000 ∧
         builds (PrepWriter.set_governance_variables self params) slot w tx).
Proof.
  intros slot. repeat split.
  - exists (write_envelope self (RegisterPrep params)).
    repeat split; try reflexivity;
      apply (write_builds_envelope self (RegisterPrep params)).
  - exists (write_envelope self UnregisterPrep).
    repeat split; try reflexivity; apply (write_builds_envelope self UnregisterPrep).
  - exists (write_envelope self (SetPrep params)).
    repeat split; try reflexivity; apply (write_builds_envelope self (SetPrep params)).
  - exists (write_envelope self (SetGovernanceVariables params)).
    repeat split; try reflexivity;
      apply (write_builds_envelope self (SetGovernanceVariables params)).
Qed.

(** The loop [for k in tmp_conf: conf[k] = tmp_conf[k]] leaves the union of
    the two dicts in which the entries of [tmp_conf] win. *)
Lemma overlay_loop (conf tmp_conf : dict) :
  map_fold (λ k v conf, <[k := v]> conf) conf tmp_conf = tmp_conf ∪ conf.
Proof.
  apply (map_fold_weak_ind (λ r m, r = m ∪ conf)).
  - by rewrite (left_id_L ∅ (∪)).
  - intros k v m r _ ->. by rewrite insert_union_l.
Qed.

Lemma lookup_overlay_loop (conf tmp_conf : dict) (key : string) :
  map_fold (λ k v conf, <[k := v]> conf) conf tmp_conf !! key
  = overlay (tmp_conf !! key) (conf !! key).
Proof.
  rewrite overlay_loop, lookup_union.
  by destruct (tmp_conf !! key), (conf !! key).
Qed.

Lemma replace_attribute_eq {S} (attr : string) (args conf : dict) (s : S) :
  _replace_attribute attr args conf s =
  (match overlay (cli_value args attr) (conf !! attr) with
   | Some v => Ret v
   | None => Raise (KeyError attr)
   end, s).
Proof.
  unfold _replace_attribute, hasattr, getattr, getitem, cli_value, overlay.
  destruct (args !! attr) as [v|] eqn:Hattr.
  - rewrite bool_decide_eq_true_2 by eauto.
    cbv [mbind mret SE_bind SE_ret raise].
    destruct v; cbn [is_None negb]; try reflexivity.
    by destruct (conf !! attr).
  - rewrite bool_decide_eq_false_2 by (intros [? [=]]).
    by destruct (conf !! attr).
Qed.

Lemma get_common_args_eq (args : dict) (w : World) :
  _get_common_args args w = (resolved_common_args args, w).
Proof.
  assert (Hrest : ∀ file conf : dict,
    (∀ key, conf !! key = overlay (file !! key) (get_default_config !! key)) →
    (url ← _replace_attribute "url" args conf;
     let url := get_url url in
     nid ← _replace_attribute "nid" args conf;
     keystore_path ← _replace_attribute "keystore" args conf;
     mret (url, nid, keystore_path)) w
    = (match resolved args file "url" with
       | None => Raise (KeyError "url")
       | Some url =>
           match resolved args file "nid" with
           | None => Raise (KeyError "nid")
           | Some nid =>
               match resolved args file "keystore" with
               | None => Raise (KeyError "keystore")
               | Some keystore_path => Ret (get_url url, nid, keystore_path)
               end
           end
       end, w)).
  { intros file conf Hconf. unfold resolved.
    cbv [mbind mret SE_bind SE_ret].
    rewrite !replace_attribute_eq, !Hconf.
    destruct (overlay (cli_value args "url") _); [|reflexivity].
    destruct (overlay (cli_value args "nid") _); [|reflexivity].
    by destruct (overlay (cli_value args "keystore") _). }
  unfold _get_common_args, resolved_common_args, config_file, hasattr, getattr.
  unfold cli_value at 1.
  destruct (args !! "config") as [path|] eqn:Hconfig.
  - rewrite bool_decide_eq_true_2 by eauto. cbn [default from_option id andb].
    destruct (is_None path) eqn:Hnone; cbn [negb].
    + destruct path; try discriminate.
      apply (Hrest ∅). intros key. by rewrite lookup_empty.
    + assert (match path with VNone => None | _ => Some path end = Some path) as ->
        by (by destruct path).
      cbv [mbind mret SE_bind SE_ret of_outcome].
      destruct (json_load_file path) as [file|e]; [|reflexivity].
      apply (Hrest file). intros key. apply lookup_overlay_loop.
  - rewrite bool_decide_eq_false_2 by (intros [? [=]]). cbn [andb].
    apply (Hrest ∅). intros key. by rewrite lookup_empty.
Qed.

(** C6. The three values [_get_common_args] returns are resolved attribute
    by attribute: the value of the command line when it is present and not
    [None], else the value of the config file when the file has the key, else
    the built-in default ([KeyError] when no layer has it), the URL then going
    through [get_url].  With defaults [{url: "A", nid: 1}], config file
    [{url: "B"}] and [nid=2] on the command line, [url] resolves to ["B"] and
    [nid] to [2]. *)
Theorem config_resolution_precedence :
  (∀ (args : dict) (w : World),
     _get_common_args args w = (resolved_common_args args, w)) ∧
  (∀ (attr : string) (args conf : dict) (w : World),
     _replace_attribute attr args conf w =
     (match overlay (cli_value args attr) (conf !! attr) with
      | Some v => Ret v
      | None => Raise (KeyError attr)
      end, w)) ∧
  (∀ (args file : dict) (w : World),
     get_default_config = {[ "url" := VStr "A"; "nid" := VInt 1 ]} →
     file = {[ "url" := VStr "B" ]} →
     cli_value args "url" = None →
     args !! "nid" = Some (VInt 2) →
     let conf := map_fold (λ k v conf, <[k := v]> conf) get_default_config file in
     _replace_attribute "url" args conf w = (Ret (VStr "B"), w) ∧
     _replace_attribute "nid" args conf w = (Ret (VInt 2), w)) ∧
  (∀ (args : dict) (path keystore_path : pyval) (w : World),
     get_default_config = {[ "url" := VStr "A"; "nid" := VInt 1 ]} →
     cli_value args "config" = Some path →
     json_load_file path = Ret {[ "url" := VStr "B" ]} →
     cli_value args "url" = None →
     args !! "nid" = Some (VInt 2) →
     cli_value args "keystore" = Some keystore_path →
     _get_common_args args w
     = (Ret (get_url (VStr "B"), VInt 2, keystore_path), w)).
Proof.
  split; [exact get_common_args_eq|].
  split; [intros; apply replace_attribute_eq|].
  split.
  - intros args file w Hdefault -> Hurl Hnid conf. subst conf.
    rewrite !replace_attribute_eq, !lookup_overlay_loop, Hdefault, Hurl.
    unfold cli_value. rewrite Hnid. split; reflexivity.
  - intros args path keystore_path w Hdefault Hconfig Hfile Hurl Hnid Hkeystore.
    rewrite get_common_args_eq.
    unfold resolved_common_args, config_file, resolved.
    rewrite Hconfig, Hfile, Hurl, Hkeystore, Hdefault.
    unfold cli_value. rewrite Hnid. reflexivity.
Qed.

Lemma create_writer_eq (url nid keystore_path password : pyval) (w : World) :
  create_writer url nid keystore_path password w =
  let w1 := with_log (console w) (log w ++ [EvLoad keystore_path password]) in
  match KeyWallet_load keystore_path password with
  | Ret owner_wallet =>
      (Ret (PrepWriter.__init__ (new_IconService (get_url url)) nid owner_wallet), w1)
  | Raise (KeyStoreException message) =>
      (Raise (SystemExit 1),
       with_log {| stdout := stdout (console w) ++ [OutPrint message];
                   stdin := stdin (console w) |}
                (log w ++ [EvLoad keystore_path password]))
  | Raise e => (Raise e, w1)
  end.
Proof.
  unfold create_writer, try_except, load_wallet, sys_exit.
  cbv [mbind mret SE_bind SE_ret emit of_outcome liftIO print write raise
       console log with_log].
  destruct (KeyWallet_load keystore_path password) as [wallet|[]]; reflexivity.
Qed.

Lemma reader_call_eq (self : PrepReader.t) (method params : pyval) (w : World) :
  PrepReader._call self method (Some params) w =
  let c := read_envelope self method params in
  match PrepReader.on_send_request self with
  | None => (Raise (TypeError "'NoneType' object is not callable"), w)
  | Some h =>
      match h (call_to_dict c) (console w) with
      | (Raise e, con) => (Raise e, with_log con (log w ++ [EvHook (call_to_dict c)]))
      | (Ret _, con) =>
          (call (PrepReader._icon_service self) c true,
           with_log con (log w ++ [EvHook (call_to_dict c); EvCall c true]))
      end
  end.
Proof.
  unfold PrepReader._call, call_object, read_envelope.
  cbv [default from_option id CallBuilder.build CallBuilder.params
       CallBuilder.method CallBuilder.to CallBuilder.from_ CallBuilder.new
       Call.from_ Call.to Call.method Call.params].
  destruct (PrepReader.on_send_request self) as [h|]; [|reflexivity].
  cbv [invoke rpc_call emit liftIO of_outcome mbind mret SE_bind SE_ret
       console log with_log].
  destruct (h _ (let (console, _) := w in console)) as [[v|e] con]; [|reflexivity].
  by rewrite <- app_assoc.
Qed.

Lemma reader_events_eq (self : PrepReader.t) (method params : pyval) (w : World) :
  new_events (PrepReader._call self method (Some params)) w =
  let c := read_envelope self method params in
  match PrepReader.on_send_request self with
  | None => []
  | Some h =>
      match h (call_to_dict c) (console w) with
      | (Raise e, _) => [EvHook (call_to_dict c)]
      | (Ret _, _) => [EvHook (call_to_dict c); EvCall c true]
      end
  end.
Proof.
  unfold new_events. rewrite reader_call_eq. cbn zeta.
  destruct (PrepReader.on_send_request self) as [h|].
  - destruct (h _ (console w)) as [[v|e] con]; cbn [snd with_log log];
      apply drop_log_app.
  - cbn [snd]. by rewrite drop_all.
Qed.

(** C7. When [KeyWallet.load] raises [KeyStoreException], [create_writer]
    prints the message of the exception and raises [SystemExit(1)], having
    made no network call.  Every other error propagates as it is: another
    exception of [KeyWallet.load], an exception of the callback, of signing,
    of the RPC client or of reading the config file. *)
Theorem keystore_failure_exits_other_errors_propagate :
  (∀ (url nid keystore_path password : pyval) (w : World) (message : pyval),
     KeyWallet_load keystore_path password = Raise (KeyStoreException message) →
     create_writer url nid keystore_path password w
     = (Raise (SystemExit 1),
        with_log {| stdout := stdout (console w) ++ [OutPrint message];
                    stdin := stdin (console w) |}
                 (log w ++ [EvLoad keystore_path password])) ∧
     count is_network
       (new_events (create_writer url nid keystore_path password) w) = 0%nat) ∧
  (∀ (url nid keystore_path password : pyval) (w : World) (e : exn),
     KeyWallet_load keystore_path password = Raise e →
     (∀ message, e ≠ KeyStoreException message) →
     create_writer url nid keystore_path password w
     = (Raise e, with_log (console w) (log w ++ [EvLoad keystore_path password]))) ∧
  (∀ (self : PrepWriter.t) (op : WriteOp) (w : World) (h : Callback)
     (e : exn) (con : Console),
     PrepWriter.on_send_request self = Some h →
     h (tx_to_dict (write_envelope self op)) (console w) = (Raise e, con) →
     (run_write_op self op w).1 = Raise e) ∧
  (∀ (self : PrepWriter.t) (op : WriteOp) (w : World) (h : Callback)
     (v : pyval) (con : Console) (e : exn),
     PrepWriter.on_send_request self = Some h →
     h (tx_to_dict (write_envelope self op)) (console w) = (Ret v, con) →
     truthy v = true →
     sign (PrepWriter._owner self) (write_envelope self op) = Raise e →
     (run_write_op self op w).1 = Raise e ∧
     count is_send (new_events (run_write_op self op) w) = 0%nat) ∧
  (∀ (self : PrepWriter.t) (op : WriteOp) (w : World) (h : Callback)
     (v : pyval) (con : Console) (sig : pyval) (e : exn),
     PrepWriter.on_send_request self = Some h →
     h (tx_to_dict (write_envelope self op)) (console w) = (Ret v, con) →
     truthy v = true →
     sign (PrepWriter._owner self) (write_envelope self op) = Ret sig →
     send_transaction (PrepWriter._icon_service self)
       (SignedTransaction.Build_t (write_envelope self op) sig) true = Raise e →
     (run_write_op self op w).1 = Raise e) ∧
  (∀ (self : PrepReader.t) (method params : pyval) (w : World) (h : Callback)
     (e : exn) (con : Console),
     PrepReader.on_send_request self = Some h →
     h (call_to_dict (read_envelope self method params)) (console w) = (Raise e, con) →
     (PrepReader._call self method (Some params) w).1 = Raise e) ∧
  (∀ (self : PrepReader.t) (method params : pyval) (w : World) (h : Callback)
     (v : pyval) (con : Console) (e : exn),
     PrepReader.on_send_request self = Some h →
     h (call_to_dict (read_envelope self method params)) (console w) = (Ret v, con) →
     call (PrepReader._icon_service self) (read_envelope self method params) true
       = Raise e →
     (PrepReader._call self method (Some params) w).1 = Raise e) ∧
  (∀ (self : PrepReader.t) (tx_hash : pyval) (w : World) (e : exn),
     (get_transaction_result (PrepReader._icon_service self) tx_hash true = Raise e →
      (PrepReader.get_tx_result self tx_hash w).1 = Raise e) ∧
     (get_transaction (PrepReader._icon_service self) tx_hash true = Raise e →
      (PrepReader.get_tx_by_hash self tx_hash w).1 = Raise e)) ∧
  (∀ (args : dict) (w : World) (path : pyval) (e : exn),
     cli_value args "config" = Some path →
     json_load_file path = Raise e →
     (_get_common_args args w).1 = Raise e).
Proof.
  repeat apply conj.
  - intros url nid keystore_path password w message Hload.
    unfold new_events. rewrite create_writer_eq, Hload. cbn zeta.
    split; [reflexivity|]. cbn [snd with_log log].
    by rewrite drop_log_app.
  - intros url nid keystore_path password w e Hload Hother.
    rewrite create_writer_eq, Hload. cbn zeta.
    destruct e; try reflexivity. by destruct (Hother message).
  - intros self op w h e con Hslot Hh.
    by rewrite run_write_op_eq, Hslot; cbn zeta; rewrite Hh.
  - intros self op w h v con e Hslot Hh Hv Hsig.
    rewrite write_events_eq, run_write_op_eq. cbn zeta.
    by rewrite Hslot, Hh, Hv, Hsig.
  - intros self op w h v con sig e Hslot Hh Hv Hsig Hsend.
    rewrite run_write_op_eq. cbn zeta.
    by rewrite Hslot, Hh, Hv, Hsig.
  - intros self method params w h e con Hslot Hh.
    rewrite reader_call_eq. cbn zeta. by rewrite Hslot, Hh.
  - intros self method params w h v con e Hslot Hh Hcall.
    rewrite reader_call_eq. cbn zeta. by rewrite Hslot, Hh.
  - intros self tx_hash w e. split; intros Hraise.
    + unfold PrepReader.get_tx_result, PrepReader._tx_result,
        rpc_get_transaction_result.
      cbv [mbind mret SE_bind SE_ret emit of_outcome]. by rewrite Hraise.
    + unfold PrepReader.get_tx_by_hash, PrepReader._tx_by_hash, rpc_get_transaction.
      cbv [mbind mret SE_bind SE_ret emit of_outcome]. by rewrite Hraise.
  - intros args w path e Hconfig Hfile.
    rewrite get_common_args_eq. unfold resolved_common_args, config_file.
    by rewrite Hconfig, Hfile.
Qed.

Lemma confirm_callback_eq (content yes : pyval) (c : Console) :
  _confirm_callback content yes c =
  let out := stdout c ++ request_lines content in
  if truthy yes then (Ret (VBool true), {| stdout := out; stdin := stdin c |})
  else
    let out := out ++ [OutPrompt "> Continue? [Y/n]"] in
    match stdin c with
    | [] => (Raise EOFError, {| stdout := out; stdin := [] |})
    | line :: rest =>
        (Ret (VBool (negb (String.eqb line "n"))), {| stdout := out; stdin := rest |})
    end.
Proof.
  unfold _confirm_callback, _print_request, print_title, print_dict, print,
    write, input, request_lines.
  cbv [mbind mret SE_bind SE_ret stdout stdin].
  destruct c as [out inp].
  destruct (truthy yes); cbn [negb].
  - by rewrite <- !app_assoc.
  - destruct inp as [|line rest].
    + by rewrite <- !app_assoc.
    + rewrite <- !app_assoc. by destruct (String.eqb line "n").
Qed.

(** C8. [_confirm_callback] first prints the request.  With a true [yes] it
    then returns [True], having written no prompt and read nothing.
    Otherwise it prompts, reads one line and returns [False] exactly when
    that line is ["n"]: the empty line, ["N"] and ["no"] give [True].
    [create_writer_by_args] puts this callback, with the [yes] of the
    arguments, in the slot of the writer it returns. *)
Theorem confirm_callback_behaviour :
  (∀ (content yes : pyval) (c : Console),
     truthy yes = true →
     _confirm_callback content yes c
     = (Ret (VBool true),
        {| stdout := stdout c ++ request_lines content; stdin := stdin c |})) ∧
  (∀ (content yes : pyval) (c : Console) (line : string) (rest : list string),
     truthy yes = false →
     stdin c = line :: rest →
     ∃ answer : bool,
       _confirm_callback content yes c
       = (Ret (VBool answer),
          {| stdout := stdout c ++ request_lines content
                         ++ [OutPrompt "> Continue? [Y/n]"];
             stdin := rest |}) ∧
       (answer = false ↔ line = "n")) ∧
  (∀ (content : pyval) (line : string),
     line ∈ [""; "N"; "no"; "y"; "n "; " n"] →
     (_confirm_callback content (VBool false) {| stdout := []; stdin := [line] |}).1
     = Ret (VBool true)) ∧
  (∀ (args : dict) (w w' : World) (writer : PrepWriter.t),
     create_writer_by_args args w = (Ret writer, w') →
     PrepWriter.on_send_request writer
     = Some (λ content, _confirm_callback content (yes_flag args))).
Proof.
  repeat apply conj.
  - intros content yes c Hyes. by rewrite confirm_callback_eq, Hyes.
  - intros content yes c line rest Hyes Hin.
    exists (negb (String.eqb line "n")).
    rewrite confirm_callback_eq, Hyes, Hin. cbn zeta.
    split; [by rewrite <- app_assoc|].
    rewrite negb_false_iff. apply String.eqb_eq.
  - intros content line Hline. rewrite confirm_callback_eq. cbn.
    repeat (apply elem_of_cons in Hline as [->|Hline]; [reflexivity|]).
    by apply elem_of_nil in Hline.
  - intros args w w' writer.
    unfold create_writer_by_args.
    cbv [mbind mret SE_bind SE_ret].
    destruct (_get_common_args args w) as [[[[url nid] keystore_path]|e] w1];
      [|by intros [=]].
    destruct (getattr args "password" w1) as [[password|e] w2]; [|by intros [=]].
    destruct (is_None password);
      [destruct (liftIO (getpass "> Password: ") w2) as [[p|e] w3];
       [|by intros [=]]|];
      (match goal with
       | |- context [create_writer ?u ?n ?k ?pw ?s] =>
           destruct (create_writer u n k pw s) as [[wr|e] w4]
       end; [|by intros [=]]);
      intros [= <- <-].
    all: unfold PrepWriter.on_send_request, PrepWriter.set_on_send_request,
      yes_flag, hasattr; cbn.
    all: destruct (args !! "yes") as [y|] eqn:Hy;
      [by rewrite bool_decide_eq_true_2 by eauto
      |by rewrite bool_decide_eq_false_2 by (intros [? [=]])].
Qed.

Lemma reader_call_notifies (self : PrepReader.t) (h : Callback)
    (method params : pyval) (w : World) :
  PrepReader.on_send_request self = Some h →
  notifies_then_queries (PrepReader._call self method (Some params)) h
    (PrepReader._icon_service self) (read_envelope self method params) w.
Proof.
  intros Hslot. unfold notifies_then_queries. cbn zeta.
  rewrite reader_events_eq, reader_call_eq. cbn zeta. rewrite Hslot.
  destruct (h _ (console w)) as [[v|e] con]; repeat split; try reflexivity.
  - by intros v' con' [= <- <-].
  - intros v' con' [=].
Qed.

(** C9. With a callback in the slot, [get_prep(address)] builds the query of
    method [getPRep] with params [{"address": address}] and [get_preps(params)]
    that of method [getPReps]; each calls the callback once with the query,
    goes on to [service.call] whatever the callback returned, and calls
    neither the wallet nor the keystore.  [get_tx_result] and
    [get_tx_by_hash] go to the client without calling the callback. *)
Theorem read_queries_notify_hook_then_dispatch (self : PrepReader.t) (h : Callback) :
  PrepReader.on_send_request self = Some h →
  (∀ (address : pyval) (w : World),
     notifies_then_queries (PrepReader.get_prep self address) h
       (PrepReader._icon_service self)
       {| Call.from_ := PrepReader._from self; Call.to := ZERO_ADDRESS;
          Call.method := VStr "getPRep";
          Call.params := VDict {[ "address" := address ]} |} w) ∧
  (∀ (params : pyval) (w : World),
     notifies_then_queries (PrepReader.get_preps self params) h
       (PrepReader._icon_service self)
       {| Call.from_ := PrepReader._from self; Call.to := ZERO_ADDRESS;
          Call.method := VStr "getPReps"; Call.params := params |} w) ∧
  (∀ (tx_hash : pyval) (w : World),
     PrepReader.get_tx_result self tx_hash w
     = (get_transaction_result (PrepReader._icon_service self) tx_hash true,
        with_log (console w) (log w ++ [EvTxResult tx_hash true])) ∧
     count is_hook (new_events (PrepReader.get_tx_result self tx_hash) w) = 0%nat) ∧
  (∀ (tx_hash : pyval) (w : World),
     PrepReader.get_tx_by_hash self tx_hash w
     = (get_transaction (PrepReader._icon_service self) tx_hash true,
        with_log (console w) (log w ++ [EvTx tx_hash true])) ∧
     count is_hook (new_events (PrepReader.get_tx_by_hash self tx_hash) w) = 0%nat).
Proof.
  intros Hslot. repeat apply conj.
  - intros address w.
    apply (reader_call_notifies self h (VStr "getPRep") _ w Hslot).
  - intros params w.
    apply (reader_call_notifies self h (VStr "getPReps") params w Hslot).
  - intros tx_hash w. unfold new_events.
    unfold PrepReader.get_tx_result, PrepReader._tx_result,
      rpc_get_transaction_result.
    cbv [mbind mret SE_bind SE_ret emit of_outcome with_log].
    split; [reflexivity|]. cbn [snd log]. by rewrite drop_log_app.
  - intros tx_hash w. unfold new_events.
    unfold PrepReader.get_tx_by_hash, PrepReader._tx_by_hash, rpc_get_transaction.
    cbv [mbind mret SE_bind SE_ret emit of_outcome with_log].
    split; [reflexivity|]. cbn [snd log]. by rewrite drop_log_app.
Qed.

(** C10. The reader [create_reader] returns has nothing in its slot, and on
    a reader with nothing in its slot [get_prep] and [get_preps] raise
    [TypeError] (the slot is called as it is) with no query dispatched. *)
Theorem reader_without_hook_raises :
  (∀ url nid : pyval, PrepReader.on_send_request (create_reader url nid) = None) ∧
  (∀ self : PrepReader.t,
     PrepReader.on_send_request self = None →
     ∀ (arg : pyval) (w : World),
       PrepReader.get_prep self arg w
       = (Raise (TypeError "'NoneType' object is not callable"), w) ∧
       PrepReader.get_preps self arg w
       = (Raise (TypeError "'NoneType' object is not callable"), w) ∧
       new_events (PrepReader.get_prep self arg) w = [] ∧
       new_events (PrepReader.get_preps self arg) w = []).
Proof.
  split; [reflexivity|].
  intros self Hslot arg w.
  unfold PrepReader.get_prep, PrepReader.get_preps.
  rewrite !reader_events_eq, !reader_call_eq. cbn zeta.
  by rewrite Hslot.
Qed.

(** ** Further properties of the module *)

Lemma print_request_eq (title : string) (content : pyval) (c : Console) :
  _print_request title content c =
  (Ret VNone,
   {| stdout := stdout c ++ [OutTitle title COLUMN; OutDict content; OutPrint (VStr "")];
      stdin := stdin c |}).
Proof.
  unfold _print_request, print_title, print_dict, print, write.
  cbv [mbind mret SE_bind SE_ret stdout stdin]. destruct c as [out inp].
  by rewrite <- !app_assoc.
Qed.

(** X1. The reader [create_reader_by_args] returns has [_print_request] with
    the title ["Request"] in its slot, a callback that prints the request,
    reads nothing and returns [None]. *)
Theorem reader_by_args_prints_requests :
  (∀ (args : dict) (w w' : World) (reader : PrepReader.t),
     create_reader_by_args args w = (Ret reader, w') →
     PrepReader.on_send_request reader = Some (_print_request "Request")) ∧
  (∀ (content : pyval) (c : Console),
     _print_request "Request" content c
     = (Ret VNone,
        {| stdout := stdout c ++ request_lines content; stdin := stdin c |}) ∧
     truthy VNone = false).
Proof.
  split.
  - intros args w w' reader. unfold create_reader_by_args.
    cbv [mbind mret SE_bind SE_ret].
    destruct (_get_common_args args w) as [[[[url nid] keystore_path]|e] w1];
      [|by intros [=]].
    by intros [= <- <-].
  - intros content c. by rewrite print_request_eq.
Qed.

(** X2. [_get_common_args] needs a keystore path from some layer, for a
    reader as for a writer: when the command line, the config file and the
    defaults all lack [keystore] (or the command line has [None] for it), it
    raises [KeyError('keystore')], and so does [create_reader_by_args]. *)
Theorem common_args_need_keystore
    (args file : dict) (url nid : pyval) (w : World) :
  config_file args = Ret file →
  resolved args file "url" = Some url →
  resolved args file "nid" = Some nid →
  resolved args file "keystore" = None →
  _get_common_args args w = (Raise (KeyError "keystore"), w) ∧
  create_reader_by_args args w = (Raise (KeyError "keystore"), w).
Proof.
  intros Hfile Hurl Hnid Hkeystore.
  assert (_get_common_args args w = (Raise (KeyError "keystore"), w)) as Hargs.
  { rewrite get_common_args_eq. unfold resolved_common_args.
    by rewrite Hfile, Hurl, Hnid, Hkeystore. }
  split; [exact Hargs|].
  unfold create_reader_by_args. cbv [mbind SE_bind]. by rewrite Hargs.
Qed.

(** X3. The config file layer has no fall-through: a key the file maps to
    [null] replaces the default with [None] when the command line gives no
    value. *)
Theorem config_file_null_overrides_default
    (attr : string) (args file : dict) (w : World) :
  cli_value args attr = None →
  file !! attr = Some VNone →
  _replace_attribute attr args
    (map_fold (λ k v conf, <[k := v]> conf) get_default_config file) w
  = (Ret VNone, w).
Proof.
  intros Hcli Hfile.
  by rewrite replace_attribute_eq, lookup_overlay_loop, Hcli, Hfile.
Qed.

(** X4. Without [yes], at the end of the input [_confirm_callback] raises
    [EOFError] once the request and the prompt are written; a write operation
    with this callback then signs and sends nothing. *)
Theorem confirm_callback_at_end_of_input
    (content yes : pyval) (c : Console) :
  truthy yes = false →
  stdin c = [] →
  _confirm_callback content yes c
  = (Raise EOFError,
     {| stdout := stdout c ++ request_lines content ++ [OutPrompt "> Continue? [Y/n]"];
        stdin := [] |}).
Proof.
  intros Hyes Hin. rewrite confirm_callback_eq, Hyes, Hin. cbn zeta.
  by rewrite <- app_assoc.
Qed.

(** X5. In [create_writer_by_args] too a keystore that does not load ends in
    [SystemExit(1)]: with resolved arguments and a password on the command
    line, nothing is read from the console and no network call is made. *)
Theorem writer_by_args_exits_on_keystore_failure
    (args : dict) (url nid keystore_path password message : pyval) (w : World) :
  resolved_common_args args = Ret (url, nid, keystore_path) →
  cli_value args "password" = Some password →
  KeyWallet_load keystore_path password = Raise (KeyStoreException message) →
  create_writer_by_args args w
  = (Raise (SystemExit 1),
     with_log {| stdout := stdout (console w) ++ [OutPrint message];
                 stdin := stdin (console w) |}
              (log w ++ [EvLoad keystore_path password])).
Proof.
  intros Hargs Hpassword Hload.
  unfold create_writer_by_args. cbv [mbind mret SE_bind SE_ret].
  rewrite get_common_args_eq, Hargs.
  unfold cli_value in Hpassword. unfold getattr.
  destruct (args !! "password") as [pw|]; [|discriminate].
  assert (pw = password ∧ is_None pw = false) as [-> Hnone]
    by (destruct pw; by inversion Hpassword).
  cbv [mret SE_ret]. rewrite Hnone.
  by rewrite create_writer_eq, Hload.
Qed.

(** The monad laws of [SE], pointwise. *)
Lemma SE_bind_ret_l {S A B} (a : A) (f : A → SE S B) (s : S) :
  (mret a ≫= f) s = f a s.
Proof. reflexivity. Qed.

Lemma SE_bind_ret_r {S A} (m : SE S A) (s : S) :
  (m ≫= mret) s = m s.
Proof. cbv [mbind mret SE_bind SE_ret]. by destruct (m s) as [[a|e] s']. Qed.

Lemma SE_bind_assoc {S A B C} (m : SE S A) (f : A → SE S B) (g : B → SE S C) (s : S) :
  ((m ≫= f) ≫= g) s = (m ≫= (λ a, f a ≫= g)) s.
Proof. cbv [mbind SE_bind]. by destruct (m s) as [[a|e] s']. Qed.

End Properties.

(** * Sessions and dispatch, end to end *)

Section Sessions.
Context `{Utils} `{Platform}.

Lemma drop_log_nil (l : list event) : drop (length l) l = [].
Proof. by rewrite drop_all. Qed.

(** What [TxHandler.call] does, by the slot, the callback and signing. *)
Lemma tx_handler_call_eq (self : TxHandler.t) (owner : KeyWallet) (to method : pyval)
    (params limit value : option pyval) (w : World) :
  TxHandler.call self owner to method params limit value w =
  let tx := handler_envelope self owner to method params limit value in
  let content := tx_to_dict tx in
  match TxHandler._on_send_request self with
  | None => (Ret VNone, w)
  | Some h =>
      match h content (console w) with
      | (Raise e, con) => (Raise e, with_log con (log w ++ [EvHook content]))
      | (Ret v, con) =>
          if truthy v then
            match sign owner tx with
            | Raise e =>
                (Raise e,
                 with_log con (log w ++ [EvHook content; EvSign tx (get_address owner)]))
            | Ret sig =>
                let stx := SignedTransaction.Build_t tx sig in
                (send_transaction (TxHandler._icon_service self) stx true,
                 with_log con
                   (log w ++ [EvHook content; EvSign tx (get_address owner);
                              EvSend stx true]))
            end
          else (Ret VNone, with_log con (log w ++ [EvHook content]))
      end
  end.
Proof.
  destruct w as [con0 log0].
  cbv [TxHandler.call TxHandler._call_tx TxHandler._call_on_send_request
       handler_envelope].
  destruct (TxHandler._on_send_request self) as [h|]; [|reflexivity].
  cbv [invoke emit liftIO mbind mret SE_bind SE_ret console log with_log
    default from_option id
    CallTransactionBuilder.build CallTransactionBuilder.value
    CallTransactionBuilder.params CallTransactionBuilder.method
    CallTransactionBuilder.nid CallTransactionBuilder.version
    CallTransactionBuilder.step_limit CallTransactionBuilder.to
    CallTransactionBuilder.from_ CallTransactionBuilder.new
    CallTransaction.from_ CallTransaction.to CallTransaction.step_limit
    CallTransaction.version CallTransaction.nid CallTransaction.method
    CallTransaction.params CallTransaction.value].
  match goal with
  | |- context [h ?c con0] => destruct (h c con0) as [[v|e] con]
  end; [|reflexivity].
  destruct (truthy v); cbn [negb]; [|reflexivity].
  cbv [SignedTransaction_init rpc_send_transaction emit of_outcome
    mbind mret SE_bind SE_ret console log].
  match goal with |- context [sign ?o ?t] => destruct (sign o t) as [sig|e] end;
    rewrite <- ?app_assoc; reflexivity.
Qed.

Lemma tx_handler_call_events_eq (self : TxHandler.t) (owner : KeyWallet)
    (to method : pyval) (params limit value : option pyval) (w : World) :
  new_events (TxHandler.call self owner to method params limit value) w =
  let tx := handler_envelope self owner to method params limit value in
  let content := tx_to_dict tx in
  match TxHandler._on_send_request self with
  | None => []
  | Some h =>
      match h content (console w) with
      | (Raise e, _) => [EvHook content]
      | (Ret v, _) =>
          if truthy v then
            match sign owner tx with
            | Raise e => [EvHook content; EvSign tx (get_address owner)]
            | Ret sig =>
                [EvHook content; EvSign tx (get_address owner);
                 EvSend (SignedTransaction.Build_t tx sig) true]
            end
          else [EvHook content]
      end
  end.
Proof.
  unfold new_events. rewrite tx_handler_call_eq. cbn zeta.
  destruct (TxHandler._on_send_request self) as [h|].
  - destruct (h _ (console w)) as [[v|e] con]; [destruct (truthy v)|];
      [destruct (sign owner _)| |];
      cbn [snd with_log log]; apply drop_log_app.
  - cbn [snd]. apply drop_log_nil.
Qed.

Lemma yes_flag_eq (args : dict) :
  (if hasattr args "yes" then default (VBool false) (args !! "yes") else VBool false)
  = yes_flag args.
Proof.
  unfold yes_flag, hasattr.
  destruct (args !! "yes") as [y|] eqn:Hy.
  - by rewrite bool_decide_eq_true_2 by eauto.
  - by rewrite bool_decide_eq_false_2 by (intros [? [=]]).
Qed.

(** [create_writer_by_args], step by step: the common arguments, the
    password ([getpass] when it is [None]), the keystore, the callback. *)
Lemma create_writer_by_args_eq (args : dict) (w : World) :
  create_writer_by_args args w =
  match resolved_common_args args with
  | Raise e => (Raise e, w)
  | Ret (url, nid, keystore_path) =>
      let finish (password : pyval) (w1 : World) :=
        match create_writer url nid keystore_path password w1 with
        | (Ret writer, w2) =>
            (Ret (PrepWriter.set_on_send_request writer (Some (confirm_with args))), w2)
        | (Raise e, w2) => (Raise e, w2)
        end in
      match args !! "password" with
      | None => (Raise (AttributeError "password"), w)
      | Some password =>
          if is_None password then
            match getpass "> Password: " (console w) with
            | (Raise e, con) => (Raise e, with_log con (log w))
            | (Ret line, con) => finish (VStr line) (with_log con (log w))
            end
          else finish password w
      end
  end.
Proof.
  unfold create_writer_by_args. cbv [mbind mret SE_bind SE_ret].
  rewrite get_common_args_eq.
  destruct (resolved_common_args args) as [[[url nid] keystore_path]|e];
    [|reflexivity].
  unfold getattr. destruct (args !! "password") as [password|]; [|reflexivity].
  cbv [mret SE_ret]. rewrite yes_flag_eq. fold (confirm_with args).
  destruct (is_None password); [|reflexivity].
  unfold liftIO, with_log.
  by destruct (getpass "> Password: " (console w)) as [[line|e] con].
Qed.

Lemma create_reader_by_args_eq (args : dict) (w : World) :
  create_reader_by_args args w =
  match resolved_common_args args with
  | Raise e => (Raise e, w)
  | Ret (url, nid, _) =>
      (Ret (PrepReader.set_on_send_request (create_reader url nid)
              (Some (_print_request "Request"))), w)
  end.
Proof.
  unfold create_reader_by_args. cbv [mbind mret SE_bind SE_ret].
  rewrite get_common_args_eq.
  by destruct (resolved_common_args args) as [[[url nid] keystore_path]|e].
Qed.

(** The writer [create_writer_by_args] returns: the one of [create_writer]
    with the confirmation callback in its slot. *)
Lemma writer_by_args_inv (args : dict) (w w1 : World) (writer : PrepWriter.t) :
  create_writer_by_args args w = (Ret writer, w1) →
  ∃ (service : IconService) (nid : pyval) (wallet : KeyWallet),
    writer = PrepWriter.set_on_send_request
               (PrepWriter.__init__ service nid wallet) (Some (confirm_with args)).
Proof.
  rewrite create_writer_by_args_eq.
  destruct (resolved_common_args args) as [[[url nid] keystore_path]|e];
    [|by intros [=]].
  cbn zeta.
  assert (∀ password w0,
    match create_writer url nid keystore_path password w0 with
    | (Ret wr, w2) =>
        (Ret (PrepWriter.set_on_send_request wr (Some (confirm_with args))), w2)
    | (Raise e, w2) => (Raise e, w2)
    end = (Ret writer, w1) →
    ∃ service nid wallet,
      writer = PrepWriter.set_on_send_request
                 (PrepWriter.__init__ service nid wallet) (Some (confirm_with args)))
    as Hfinish.
  { intros password w0. rewrite create_writer_eq. cbn zeta.
    destruct (KeyWallet_load keystore_path password) as [wallet|[]];
      try (by intros [=]).
    intros [= <- _]. eauto. }
  destruct (args !! "password") as [password|]; [|by intros [=]].
  destruct (is_None password); [|apply Hfinish].
  destruct (getpass "> Password: " (console w)) as [[line|e] con];
    [apply Hfinish | by intros [=]].
Qed.

(** X6. [TxHandler.call] sends to the address it is given, from the address
    of the owner, under the network id of the handler and version 3; left
    out, the step limit is 0x50000000, the value 0 and the params [None]. *)
Theorem tx_handler_call_routes_and_defaults
    (self : TxHandler.t) (owner : KeyWallet) (to method : pyval)
    (params limit value : option pyval) (w : World) :
  ∃ tx : CallTransaction.t,
    CallTransaction.from_ tx = get_address owner ∧
    CallTransaction.to tx = to ∧
    CallTransaction.nid tx = TxHandler._nid self ∧
    CallTransaction.version tx = VInt 3 ∧
    CallTransaction.method tx = method ∧
    CallTransaction.step_limit tx = default (VInt 0x50000000) limit ∧
    CallTransaction.value tx = default (VInt 0) value ∧
    CallTransaction.params tx = default VNone params ∧
    builds (TxHandler.call self owner to method params limit value)
      (TxHandler._on_send_request self) w tx.
Proof.
  exists (handler_envelope self owner to method params limit value).
  repeat split; try reflexivity; rewrite tx_handler_call_events_eq; cbn zeta;
    destruct (TxHandler._on_send_request self) as [h|];
    try (destruct (h _ (console w)) as [[v|e] con]; [destruct (truthy v)|];
         [destruct (sign owner _)| |]).
  all: try (repeat constructor; fail).
  all: try (by intros h' [=]).
  all: by intros h' _.
Qed.

(** X7. The slot holds one callback, the one registered last: the getter
    returns what the setter stored, a write or a read after two registrations
    runs as after the second alone, and registering [None] brings back the
    behaviour of the empty slot (writes skipped, reads raising). *)
Theorem later_registration_replaces
    (writer : PrepWriter.t) (reader : PrepReader.t) (f g : option Callback) :
  PrepWriter.on_send_request (PrepWriter.set_on_send_request writer g) = g ∧
  PrepReader.on_send_request (PrepReader.set_on_send_request reader g) = g ∧
  (∀ op w,
     run_write_op
       (PrepWriter.set_on_send_request (PrepWriter.set_on_send_request writer f) g)
       op w
     = run_write_op (PrepWriter.set_on_send_request writer g) op w) ∧
  (∀ method params w,
     PrepReader._call
       (PrepReader.set_on_send_request (PrepReader.set_on_send_request reader f) g)
       method params w
     = PrepReader._call (PrepReader.set_on_send_request reader g) method params w) ∧
  (∀ op w,
     run_write_op
       (PrepWriter.set_on_send_request (PrepWriter.set_on_send_request writer f) None)
       op w
     = (Ret VNone, w)) ∧
  (∀ method params w,
     PrepReader._call
       (PrepReader.set_on_send_request (PrepReader.set_on_send_request reader f) None)
       method (Some params) w
     = (Raise (TypeError "'NoneType' object is not callable"), w)).
Proof.
  repeat apply conj; try reflexivity.
  intros op w. by rewrite run_write_op_eq.
Qed.

(** X8. When the keystore loads, [create_writer] returns a writer for the
    client of [get_url(url)], the given network id and the loaded wallet,
    having called only [KeyWallet.load] and printed nothing.  Its slot is
    empty: until a callback is registered every write operation on it
    returns [None] and signs and sends nothing. *)
Theorem create_writer_alone_never_sends
    (url nid keystore_path password : pyval) (wallet : KeyWallet) (w : World) :
  KeyWallet_load keystore_path password = Ret wallet →
  ∃ writer : PrepWriter.t,
    create_writer url nid keystore_path password w
    = (Ret writer, with_log (console w) (log w ++ [EvLoad keystore_path password])) ∧
    PrepWriter._icon_service writer = new_IconService (get_url url) ∧
    PrepWriter._nid writer = nid ∧
    PrepWriter._owner writer = wallet ∧
    PrepWriter.on_send_request writer = None ∧
    (∀ op w', run_write_op writer op w' = (Ret VNone, w')).
Proof.
  intros Hload. eexists. rewrite create_writer_eq, Hload. cbn zeta.
  split; [reflexivity|]. repeat split.
  intros op w'. by rewrite run_write_op_eq.
Qed.

(** X9. [create_writer_by_args] loads the keystore with the password of the
    command line when there is one, without calling [getpass]: the console
    is untouched.  When the password is [None] it calls
    [getpass("> Password: ")] and loads the keystore with the string that
    returns, the console being as [getpass] left it. *)
Theorem writer_by_args_password_source
    (args : dict) (url nid keystore_path : pyval) (wallet : KeyWallet) (w : World) :
  resolved_common_args args = Ret (url, nid, keystore_path) →
  let registered := λ wallet,
    PrepWriter.set_on_send_request
      (PrepWriter.__init__ (new_IconService (get_url url)) nid wallet)
      (Some (confirm_with args)) in
  (∀ password,
     cli_value args "password" = Some password →
     KeyWallet_load keystore_path password = Ret wallet →
     create_writer_by_args args w
     = (Ret (registered wallet),
        with_log (console w) (log w ++ [EvLoad keystore_path password]))) ∧
  (∀ line con,
     args !! "password" = Some VNone →
     getpass "> Password: " (console w) = (Ret line, con) →
     KeyWallet_load keystore_path (VStr line) = Ret wallet →
     create_writer_by_args args w
     = (Ret (registered wallet),
        with_log con (log w ++ [EvLoad keystore_path (VStr line)]))).
Proof.
  intros Hargs registered. subst registered. split.
  - intros password Hpassword Hload.
    rewrite create_writer_by_args_eq, Hargs. cbn zeta.
    unfold cli_value in Hpassword.
    destruct (args !! "password") as [pw|]; [|discriminate].
    assert (pw = password ∧ is_None pw = false) as [-> ->]
      by (destruct pw; by inversion Hpassword).
    by rewrite create_writer_eq, Hload.
  - intros line con Hpassword Hgetpass Hload.
    rewrite create_writer_by_args_eq, Hargs, Hpassword. cbn zeta.
    cbn [is_None]. rewrite Hgetpass.
    by rewrite create_writer_eq, Hload.
Qed.

(** X10. [create_writer_by_args] fails before it touches the keystore: an
    error of the common arguments is raised as it is, and arguments without
    a [password] attribute raise [AttributeError], both with nothing printed,
    read or loaded; with a [None] password, an exception of [getpass] is
    raised as it is, the keystore not loaded. *)
Theorem writer_by_args_fails_before_loading (args : dict) (w : World) :
  (∀ e, resolved_common_args args = Raise e →
        create_writer_by_args args w = (Raise e, w)) ∧
  (∀ common, resolved_common_args args = Ret common →
             args !! "password" = None →
             create_writer_by_args args w = (Raise (AttributeError "password"), w)) ∧
  (∀ common e con,
     resolved_common_args args = Ret common →
     args !! "password" = Some VNone →
     getpass "> Password: " (console w) = (Raise e, con) →
     create_writer_by_args args w = (Raise e, with_log con (log w)) ∧
     new_events (create_writer_by_args args) w = []).
Proof.
  repeat apply conj.
  - intros e Hargs. by rewrite create_writer_by_args_eq, Hargs.
  - intros [[url nid] keystore_path] Hargs Hpassword.
    by rewrite create_writer_by_args_eq, Hargs, Hpassword.
  - intros [[url nid] keystore_path] e con Hargs Hpassword Hgetpass.
    unfold new_events.
    rewrite create_writer_by_args_eq, Hargs, Hpassword. cbn zeta.
    cbn [is_None]. rewrite Hgetpass. split; [reflexivity|].
    apply drop_log_nil.
Qed.

(** X11. On a writer of [create_writer_by_args] made without [yes], a write
    operation prints the request and the prompt and reads one line.  The
    line ["n"] ends it with [None] and nothing signed or sent; any other line
    has the envelope signed and sent once, the result being the answer of the
    client. *)
Theorem by_args_writer_asks_then_decides
    (args : dict) (w w1 : World) (writer : PrepWriter.t) (op : WriteOp)
    (line : string) (rest : list string) :
  create_writer_by_args args w = (Ret writer, w1) →
  truthy (yes_flag args) = false →
  stdin (console w1) = line :: rest →
  let tx := write_envelope writer op in
  let con :=
    {| stdout := stdout (console w1) ++ request_lines (tx_to_dict tx)
                   ++ [OutPrompt "> Continue? [Y/n]"];
       stdin := rest |} in
  (line = "n" →
   run_write_op writer op w1
   = (Ret VNone, with_log con (log w1 ++ [EvHook (tx_to_dict tx)]))) ∧
  (line ≠ "n" →
   ∀ sig, sign (PrepWriter._owner writer) tx = Ret sig →
     run_write_op writer op w1
     = (send_transaction (PrepWriter._icon_service writer)
          (SignedTransaction.Build_t tx sig) true,
        with_log con
          (log w1 ++ [EvHook (tx_to_dict tx);
                      EvSign tx (get_address (PrepWriter._owner writer));
                      EvSend (SignedTransaction.Build_t tx sig) true]))).
Proof.
  intros Hcreate Hyes Hin tx con. subst tx con.
  destruct (writer_by_args_inv _ _ _ _ Hcreate) as (service & nid & wallet & ->).
  split.
  - intros ->. rewrite run_write_op_eq. cbn zeta.
    cbn [PrepWriter.on_send_request PrepWriter.set_on_send_request PrepWriter.super
         PrepListener.on_send_request PrepListener.set_on_send_request
         PrepListener._on_send_request].
    unfold confirm_with at 1. rewrite confirm_callback_eq, Hyes, Hin. cbn zeta.
    cbn [String.eqb Ascii.eqb Bool.eqb negb truthy]. by rewrite <- app_assoc.
  - intros Hline sig Hsig. rewrite run_write_op_eq. cbn zeta.
    cbn [PrepWriter.on_send_request PrepWriter.set_on_send_request PrepWriter.super
         PrepListener.on_send_request PrepListener.set_on_send_request
         PrepListener._on_send_request].
    unfold confirm_with at 1. rewrite confirm_callback_eq, Hyes, Hin. cbn zeta.
    apply String.eqb_neq in Hline. rewrite Hline. cbn [negb truthy].
    rewrite Hsig. by rewrite <- app_assoc.
Qed.

(** X12. On a writer of [create_writer_by_args] made with a true [yes], a
    write operation prints the request, reads nothing, and has the envelope
    signed and sent once; its result is the answer of the client. *)
Theorem by_args_writer_auto_yes
    (args : dict) (w w1 : World) (writer : PrepWriter.t) (op : WriteOp) (sig : pyval) :
  create_writer_by_args args w = (Ret writer, w1) →
  truthy (yes_flag args) = true →
  sign (PrepWriter._owner writer) (write_envelope writer op) = Ret sig →
  let tx := write_envelope writer op in
  run_write_op writer op w1
  = (send_transaction (PrepWriter._icon_service writer)
       (SignedTransaction.Build_t tx sig) true,
     with_log {| stdout := stdout (console w1) ++ request_lines (tx_to_dict tx);
                 stdin := stdin (console w1) |}
       (log w1 ++ [EvHook (tx_to_dict tx);
                   EvSign tx (get_address (PrepWriter._owner writer));
                   EvSend (SignedTransaction.Build_t tx sig) true])).
Proof.
  intros Hcreate Hyes Hsig tx. subst tx.
  destruct (writer_by_args_inv _ _ _ _ Hcreate) as (service & nid & wallet & ->).
  rewrite run_write_op_eq. cbn zeta.
  cbn [PrepWriter.on_send_request PrepWriter.set_on_send_request PrepWriter.super
       PrepListener.on_send_request PrepListener.set_on_send_request
       PrepListener._on_send_request].
  unfold confirm_with at 1. rewrite confirm_callback_eq, Hyes. cbn zeta.
  cbn [truthy]. by rewrite Hsig.
Qed.

(** X13. A session made from the arguments has the client of
    [get_url(get_url(url))]: [_get_common_args] passes the resolved URL
    through [get_url] and [create_reader] / [create_writer] pass the result
    through it again.  The reader sends from [EOA_ADDRESS] and makes no use
    of the keystore path. *)
Theorem by_args_url_resolved_twice
    (args file : dict) (url nid keystore_path : pyval) (w : World) :
  config_file args = Ret file →
  resolved args file "url" = Some url →
  resolved args file "nid" = Some nid →
  resolved args file "keystore" = Some keystore_path →
  (∃ reader : PrepReader.t,
     create_reader_by_args args w = (Ret reader, w) ∧
     PrepReader._icon_service reader = new_IconService (get_url (get_url url)) ∧
     PrepReader._nid reader = nid ∧
     PrepReader._from reader = EOA_ADDRESS) ∧
  (∀ password wallet,
     cli_value args "password" = Some password →
     KeyWallet_load keystore_path password = Ret wallet →
     ∃ (writer : PrepWriter.t) (w1 : World),
       create_writer_by_args args w = (Ret writer, w1) ∧
       PrepWriter._icon_service writer = new_IconService (get_url (get_url url)) ∧
       PrepWriter._nid writer = nid ∧
       PrepWriter._owner writer = wallet).
Proof.
  intros Hfile Hurl Hnid Hkeystore.
  assert (resolved_common_args args = Ret (get_url url, nid, keystore_path)) as Hargs.
  { unfold resolved_common_args. by rewrite Hfile, Hurl, Hnid, Hkeystore. }
  split.
  - eexists. rewrite create_reader_by_args_eq, Hargs. by repeat split.
  - intros password wallet Hpassword Hload.
    do 2 eexists. rewrite create_writer_by_args_eq, Hargs. cbn zeta.
    unfold cli_value in Hpassword.
    destruct (args !! "password") as [pw|]; [|discriminate].
    assert (pw = password ∧ is_None pw = false) as [-> ->]
      by (destruct pw; by inversion Hpassword).
    rewrite create_writer_eq, Hload. by repeat split.
Qed.

(** X14. On a reader of [create_reader_by_args], [get_prep] and [get_preps]
    print the query, read nothing, and return the answer of
    [service.call(query, True)]; the query is sent from [EOA_ADDRESS] to
    [ZERO_ADDRESS]. *)
Theorem by_args_reader_prints_then_queries
    (args : dict) (w w1 : World) (reader : PrepReader.t) :
  create_reader_by_args args w = (Ret reader, w1) →
  let run := λ (m : M pyval) (method params : pyval),
    let query :=
      {| Call.from_ := EOA_ADDRESS; Call.to := ZERO_ADDRESS;
         Call.method := method; Call.params := params |} in
    m w1 = (call (PrepReader._icon_service reader) query true,
            with_log {| stdout := stdout (console w1)
                                    ++ request_lines (call_to_dict query);
                        stdin := stdin (console w1) |}
              (log w1 ++ [EvHook (call_to_dict query); EvCall query true])) in
  (∀ address,
     run (PrepReader.get_prep reader address) (VStr "getPRep")
       (VDict {[ "address" := address ]})) ∧
  (∀ params, run (PrepReader.get_preps reader params) (VStr "getPReps") params).
Proof.
  rewrite create_reader_by_args_eq.
  destruct (resolved_common_args args) as [[[url nid] keystore_path]|e];
    [|by intros [=]].
  intros [= <- <-] run. subst run.
  split; intros arg; unfold PrepReader.get_prep, PrepReader.get_preps;
    rewrite reader_call_eq; cbn zeta;
    cbn [PrepReader.on_send_request PrepReader.set_on_send_request PrepReader.super
         PrepListener.on_send_request PrepListener.set_on_send_request
         PrepListener._on_send_request];
    by rewrite print_request_eq.
Qed.


(** X16. Every call the dispatchers make on the RPC client asks for the full
    response: [send_transaction(..., full_response=True)] in the four write
    operations, [call(..., True)] in the two queries, and
    [get_transaction_result(..., True)] and [get_transaction(..., True)]. *)
Theorem network_calls_ask_full_response (w : World) :
  (∀ (self : PrepWriter.t) (op : WriteOp),
     Forall asks_full_response (new_events (run_write_op self op) w)) ∧
  (∀ (self : PrepReader.t) (arg : pyval),
     Forall asks_full_response (new_events (PrepReader.get_prep self arg) w) ∧
     Forall asks_full_response (new_events (PrepReader.get_preps self arg) w) ∧
     new_events (PrepReader.get_tx_result self arg) w = [EvTxResult arg true] ∧
     new_events (PrepReader.get_tx_by_hash self arg) w = [EvTx arg true]).
Proof.
  split.
  - intros self op. rewrite write_events_eq. cbn zeta.
    destruct (PrepWriter.on_send_request self) as [h|]; [|constructor].
    destruct (h _ (console w)) as [[v|e] con]; [destruct (truthy v)|];
      [destruct (sign _ _)| |]; by repeat constructor.
  - intros self arg. unfold PrepReader.get_prep, PrepReader.get_preps.
    rewrite !reader_events_eq. cbn zeta.
    repeat apply conj.
    + destruct (PrepReader.on_send_request self) as [h|]; [|constructor].
      destruct (h _ (console w)) as [[v|e] con]; by repeat constructor.
    + destruct (PrepReader.on_send_request self) as [h|]; [|constructor].
      destruct (h _ (console w)) as [[v|e] con]; by repeat constructor.
    + unfold new_events, PrepReader.get_tx_result, PrepReader._tx_result,
        rpc_get_transaction_result.
      cbv [mbind mret SE_bind SE_ret emit of_outcome]. cbn [snd log].
      apply drop_log_app.
    + unfold new_events, PrepReader.get_tx_by_hash, PrepReader._tx_by_hash,
        rpc_get_transaction.
      cbv [mbind mret SE_bind SE_ret emit of_outcome]. cbn [snd log].
      apply drop_log_app.
Qed.

(** X17. In a write operation the envelope is signed by the wallet whose
    address is its sender, and what is sent is that envelope with the
    signature the wallet gave for it. *)
Theorem signed_by_sender_and_sent_as_signed
    (self : PrepWriter.t) (op : WriteOp) (w : World) :
  Forall
    (λ e, match e with
          | EvSign tx signer =>
              signer = CallTransaction.from_ tx ∧
              signer = get_address (PrepWriter._owner self)
          | EvSend stx _ =>
              sign (PrepWriter._owner self) (SignedTransaction.transaction stx)
              = Ret (SignedTransaction.signature stx) ∧
              EvSign (SignedTransaction.transaction stx)
                (get_address (PrepWriter._owner self))
              ∈ new_events (run_write_op self op) w
          | _ => True
          end)
    (new_events (run_write_op self op) w).
Proof.
  rewrite write_events_eq. cbn zeta.
  destruct (PrepWriter.on_send_request self) as [h|]; [|constructor].
  destruct (h _ (console w)) as [[v|e] con]; [destruct (truthy v)|];
    [destruct (sign _ _) eqn:Hsig| |]; repeat constructor; done.
Qed.

(** X18. The transaction lookups do not go through the slot: on the reader
    [create_reader] returns, whose slot is empty, [get_tx_result] and
    [get_tx_by_hash] return the answer of the client of [get_url(url)] with
    nothing printed, where [get_prep] raises. *)
Theorem tx_lookups_work_without_callback (url nid tx_hash : pyval) (w : World) :
  let reader := create_reader url nid in
  let service := new_IconService (get_url url) in
  PrepReader.get_tx_result reader tx_hash w
  = (get_transaction_result service tx_hash true,
     with_log (console w) (log w ++ [EvTxResult tx_hash true])) ∧
  PrepReader.get_tx_by_hash reader tx_hash w
  = (get_transaction service tx_hash true,
     with_log (console w) (log w ++ [EvTx tx_hash true])) ∧
  (PrepReader.get_prep reader tx_hash w).1
  = Raise (TypeError "'NoneType' object is not callable").
Proof.
  intros reader service. subst reader service.
  unfold PrepReader.get_tx_result, PrepReader._tx_result, rpc_get_transaction_result,
    PrepReader.get_tx_by_hash, PrepReader._tx_by_hash, rpc_get_transaction,
    PrepReader.get_prep.
  rewrite reader_call_eq.
  cbv [mbind mret SE_bind SE_ret emit of_outcome with_log].
  by repeat split.
Qed.

(** X19. A dispatcher prints and reads nothing of its own: after a write
    operation or a query the console is as the callback left it, and as it
    was when the slot is empty. *)
Theorem dispatch_leaves_console_to_callback (w : World) :
  (∀ (self : PrepWriter.t) (op : WriteOp),
     console (run_write_op self op w).2
     = match PrepWriter.on_send_request self with
       | Some h => (h (tx_to_dict (write_envelope self op)) (console w)).2
       | None => console w
       end) ∧
  (∀ (self : PrepReader.t) (method params : pyval),
     console (PrepReader._call self method (Some params) w).2
     = match PrepReader.on_send_request self with
       | Some h => (h (call_to_dict (read_envelope self method params)) (console w)).2
       | None => console w
       end).
Proof.
  split.
  - intros self op. rewrite run_write_op_eq. cbn zeta.
    destruct (PrepWriter.on_send_request self) as [h|]; [|reflexivity].
    destruct (h _ (console w)) as [[v|e] con]; [destruct (truthy v)|];
      [destruct (sign _ _)| |]; reflexivity.
  - intros self method params. rewrite reader_call_eq. cbn zeta.
    destruct (PrepReader.on_send_request self) as [h|]; [|reflexivity].
    by destruct (h _ (console w)) as [[v|e] con].
Qed.

End Sessions.

(** * The properties on the test doubles *)

Lemma write_approved_signed_and_sent_once_witness :
  PrepWriter.on_send_request Demo.approving_writer = Some Demo.approve ∧
  (@run_write_op Demo.utils Demo.platform Demo.approving_writer UnregisterPrep
     Demo.world0).1 = Ret (VStr "0xa1b2") ∧
  count is_sign
    (new_events
       (@run_write_op Demo.utils Demo.platform Demo.approving_writer UnregisterPrep)
       Demo.world0) = 1%nat ∧
  count is_send
    (new_events
       (@run_write_op Demo.utils Demo.platform Demo.approving_writer UnregisterPrep)
       Demo.world0) = 1%nat.
Proof.
  pose proof (@write_approved_signed_and_sent_once Demo.utils Demo.platform
    Demo.approving_writer UnregisterPrep Demo.world0 Demo.approve (VBool true)
    (console Demo.world0) (VStr "signature")
    eq_refl eq_refl eq_refl eq_refl) as W.
  cbv zeta in W. destruct W as (Hret & _ & _ & Hsign & Hsend).
  split; [reflexivity|]. split; [exact Hret|]. split; [exact Hsign | exact Hsend].
Defined.

Lemma write_declined_not_sent_witness :
  PrepWriter.on_send_request Demo.declining_writer = Some Demo.decline ∧
  (@run_write_op Demo.utils Demo.platform Demo.declining_writer
     (RegisterPrep (VDict {[ "name" := VStr "node" ]})) Demo.world0).1 = Ret VNone ∧
  count is_network
    (new_events
       (@run_write_op Demo.utils Demo.platform Demo.declining_writer
          (RegisterPrep (VDict {[ "name" := VStr "node" ]})))
       Demo.world0) = 0%nat.
Proof.
  pose proof (@write_declined_not_sent Demo.utils Demo.platform
    Demo.declining_writer (RegisterPrep (VDict {[ "name" := VStr "node" ]}))
    Demo.world0 Demo.decline (VBool false) (console Demo.world0)
    eq_refl eq_refl eq_refl) as W.
  cbv zeta in W. destruct W as (Hret & _ & _ & _ & Hnet).
  split; [reflexivity|]. split; [exact Hret | exact Hnet].
Defined.

Lemma write_without_hook_skipped_witness :
  PrepWriter.on_send_request Demo.writer = None ∧
  @run_write_op Demo.utils Demo.platform Demo.writer (SetPrep (VDict ∅)) Demo.world0
  = (Ret VNone, Demo.world0).
Proof.
  split; [reflexivity|].
  exact (proj1 (proj2 (@write_without_hook_skipped Demo.utils Demo.platform
                         Demo.writer eq_refl) (SetPrep (VDict ∅)) Demo.world0)).
Defined.

Lemma write_envelope_routing_witness :
  ∃ tx : CallTransaction.t,
    CallTransaction.to tx = VStr "cx0000000000000000000000000000000000000000" ∧
    CallTransaction.nid tx = VInt 3 ∧
    CallTransaction.from_ tx = VStr "hx1111111111111111111111111111111111111111" ∧
    CallTransaction.version tx = VInt 3 ∧
    @builds Demo.platform
      (@run_write_op Demo.utils Demo.platform Demo.approving_writer UnregisterPrep)
      (Some Demo.approve) Demo.world0 tx.
Proof.
  exact (@write_envelope_routing Demo.utils Demo.platform Demo.approving_writer
           UnregisterPrep Demo.world0).
Defined.

Lemma write_envelope_value_and_limit_witness :
  ∃ tx : CallTransaction.t,
    CallTransaction.value tx = VInt 2000000000000000000000 ∧
    CallTransaction.step_limit tx = VInt 268435456 ∧
    @builds Demo.platform
      (@PrepWriter.register_prep Demo.utils Demo.platform Demo.approving_writer VNone)
      (Some Demo.approve) Demo.world0 tx.
Proof.
  exact (proj1 (@write_envelope_value_and_limit Demo.utils Demo.platform
                  Demo.approving_writer VNone Demo.world0)).
Defined.

Lemma config_resolution_precedence_witness :
  @_get_common_args Demo.utils Demo.platform Demo.args Demo.world0
  = (Ret (VStr "B", VInt 2, VStr "ks.json"), Demo.world0).
Proof.
  apply (proj2 (proj2 (proj2 (@config_resolution_precedence Demo.utils Demo.platform)))
           Demo.args (VStr "conf.json") (VStr "ks.json") Demo.world0);
    vm_compute; reflexivity.
Defined.

Lemma keystore_failure_exits_witness :
  @create_writer Demo.utils Demo.platform (VStr "A") (VInt 3) (VStr "ks.json")
    (VStr "guess") Demo.world0
  = (Raise (SystemExit 1),
     {| console := {| stdout := [OutPrint (VStr "Wrong password")];
                      stdin := ["n"; ""] |};
        log := [EvLoad (VStr "ks.json") (VStr "guess")] |}).
Proof.
  exact (proj1 (proj1 (@keystore_failure_exits_other_errors_propagate
                         Demo.utils Demo.platform)
                  (VStr "A") (VInt 3) (VStr "ks.json") (VStr "guess") Demo.world0
                  (VStr "Wrong password") eq_refl)).
Defined.

Lemma confirm_callback_behaviour_witness :
  ∃ answer : bool,
    @_confirm_callback Demo.utils (VDict ∅) (VBool false) (console Demo.world0)
    = (Ret (VBool answer),
       {| stdout := [OutTitle "Request" (VInt 80); OutDict (VDict ∅);
                     OutPrint (VStr ""); OutPrompt "> Continue? [Y/n]"];
          stdin := [""] |}) ∧
    (answer = false ↔ "n" = "n").
Proof.
  exact (proj1 (proj2 (@confirm_callback_behaviour Demo.utils Demo.platform))
           (VDict ∅) (VBool false) (console Demo.world0) "n" [""] eq_refl eq_refl).
Defined.

Lemma read_queries_notify_hook_then_dispatch_witness :
  PrepReader.on_send_request Demo.printing_reader = Some Demo.printer ∧
  (@PrepReader.get_prep Demo.utils Demo.platform Demo.printing_reader
     (VStr "hx2222222222222222222222222222222222222222") Demo.world0).1
  = Ret (VDict {[ "name" := VStr "node" ]}).
Proof.
  split; [reflexivity|].
  pose proof (proj1 (@read_queries_notify_hook_then_dispatch Demo.utils Demo.platform
                       Demo.printing_reader Demo.printer eq_refl)
                (VStr "hx2222222222222222222222222222222222222222") Demo.world0) as W.
  destruct W as (_ & _ & _ & _ & Hrun).
  by rewrite (Hrun _ _ eq_refl).
Defined.

Lemma reader_without_hook_raises_witness :
  PrepReader.on_send_request
    (@create_reader Demo.utils Demo.platform (VStr "A") (VInt 3)) = None ∧
  @PrepReader.get_preps Demo.utils Demo.platform
    (@create_reader Demo.utils Demo.platform (VStr "A") (VInt 3)) (VDict ∅) Demo.world0
  = (Raise (TypeError "'NoneType' object is not callable"), Demo.world0).
Proof.
  split; [reflexivity|].
  exact (proj1 (proj2 (proj2 (@reader_without_hook_raises Demo.utils Demo.platform)
                         (@create_reader Demo.utils Demo.platform (VStr "A") (VInt 3))
                         eq_refl (VDict ∅) Demo.world0))).
Defined.

Lemma common_args_need_keystore_witness :
  @create_reader_by_args Demo.utils Demo.platform
    {[ "config" := VStr "conf.json"; "nid" := VInt 2 ]} Demo.world0
  = (Raise (KeyError "keystore"), Demo.world0).
Proof.
  apply (@common_args_need_keystore Demo.utils Demo.platform
           {[ "config" := VStr "conf.json"; "nid" := VInt 2 ]}
           {[ "url" := VStr "B" ]} (VStr "B") (VInt 2) Demo.world0);
    vm_compute; reflexivity.
Defined.

Lemma config_file_null_overrides_default_witness :
  @_replace_attribute World "nid" ∅
    (map_fold (λ k v conf, <[k := v]> conf) (@get_default_config Demo.utils)
       {[ "nid" := VNone ]}) Demo.world0
  = (Ret VNone, Demo.world0).
Proof.
  apply (@config_file_null_overrides_default Demo.utils "nid" ∅
           {[ "nid" := VNone ]} Demo.world0);
    vm_compute; reflexivity.
Defined.

Lemma confirm_callback_at_end_of_input_witness :
  @_confirm_callback Demo.utils VNone VNone {| stdout := []; stdin := [] |}
  = (Raise EOFError,
     {| stdout := [OutTitle "Request" (VInt 80); OutDict VNone; OutPrint (VStr "");
                   OutPrompt "> Continue? [Y/n]"];
        stdin := [] |}).
Proof.
  exact (@confirm_callback_at_end_of_input Demo.utils VNone VNone
           {| stdout := []; stdin := [] |} eq_refl eq_refl).
Defined.

Lemma writer_by_args_exits_on_keystore_failure_witness :
  (@create_writer_by_args Demo.utils Demo.platform
     (<[ "password" := VStr "guess" ]> Demo.args) Demo.world0).1
  = Raise (SystemExit 1).
Proof.
  rewrite (@writer_by_args_exits_on_keystore_failure Demo.utils Demo.platform
             (<[ "password" := VStr "guess" ]> Demo.args)
             (VStr "B") (VInt 2) (VStr "ks.json") (VStr "guess")
             (VStr "Wrong password") Demo.world0);
    [reflexivity | vm_compute; reflexivity ..].
Defined.

Lemma reader_by_args_prints_requests_witness :
  PrepReader.on_send_request
    (default Demo.reader
       (match (@create_reader_by_args Demo.utils Demo.platform Demo.args Demo.world0).1 with
        | Ret reader => Some reader
        | Raise _ => None
        end))
  = Some Demo.printer.
Proof.
  apply (proj1 (@reader_by_args_prints_requests Demo.utils Demo.platform)
           Demo.args Demo.world0 Demo.world0).
  vm_compute. reflexivity.
Defined.

(** [create_writer_by_args] returns on the test doubles: the keystore loads
    with the password of the command line and nothing is read or printed. *)
Example create_writer_by_args_returns :
  ∃ writer : PrepWriter.t,
    @create_writer_by_args Demo.utils Demo.platform Demo.args Demo.world0
    = (Ret writer,
       {| console := console Demo.world0;
          log := [EvLoad (VStr "ks.json") (VStr "secret")] |}) ∧
    PrepWriter._nid writer = VInt 2.
Proof. eexists. split; vm_compute; reflexivity. Qed.

Lemma create_writer_alone_never_sends_witness :
  ∃ writer : PrepWriter.t,
    @create_writer Demo.utils Demo.platform (VStr "A") (VInt 3) (VStr "ks.json")
      (VStr "secret") Demo.world0
    = (Ret writer, Demo.loaded Demo.world0) ∧
    @run_write_op Demo.utils Demo.platform writer UnregisterPrep Demo.world0
    = (Ret VNone, Demo.world0).
Proof.
  destruct (@create_writer_alone_never_sends Demo.utils Demo.platform (VStr "A")
              (VInt 3) (VStr "ks.json") (VStr "secret") Demo.wallet Demo.world0
              eq_refl) as (writer & Hcreate & _ & _ & _ & _ & Hskip).
  exists writer. split; [exact Hcreate | apply Hskip].
Defined.

Lemma writer_by_args_password_source_witness :
  @create_writer_by_args Demo.utils Demo.platform Demo.args_ask_password Demo.world0
  = (Ret (Demo.session_writer Demo.args_ask_password), Demo.loaded Demo.world0).
Proof.
  apply (proj2 (@writer_by_args_password_source Demo.utils Demo.platform
                  Demo.args_ask_password (VStr "B") (VInt 2) (VStr "ks.json")
                  Demo.wallet Demo.world0
                  ltac:(vm_compute; reflexivity)) "secret" (console Demo.world0));
    vm_compute; reflexivity.
Defined.

Lemma writer_by_args_fails_before_loading_witness :
  @create_writer_by_args Demo.utils Demo.headless Demo.args_ask_password
    {| console := {| stdout := []; stdin := [] |}; log := [] |}
  = (Raise EOFError, {| console := {| stdout := []; stdin := [] |}; log := [] |}).
Proof.
  apply (proj2 (proj2 (@writer_by_args_fails_before_loading Demo.utils Demo.headless
                         Demo.args_ask_password
                         {| console := {| stdout := []; stdin := [] |}; log := [] |}))
           (VStr "B", VInt 2, VStr "ks.json") EOFError
           {| stdout := []; stdin := [] |});
    vm_compute; reflexivity.
Defined.

Lemma by_args_writer_asks_then_decides_witness :
  @run_write_op Demo.utils Demo.platform (Demo.session_writer Demo.args)
    UnregisterPrep (Demo.loaded Demo.world0)
  = (Ret VNone,
     {| console :=
          {| stdout :=
               @request_lines Demo.utils
                 (@tx_to_dict Demo.platform
                    (@write_envelope Demo.utils (Demo.session_writer Demo.args)
                       UnregisterPrep))
               ++ [OutPrompt "> Continue? [Y/n]"];
             stdin := [""] |};
        log := [EvLoad (VStr "ks.json") (VStr "secret");
                EvHook (@tx_to_dict Demo.platform
                          (@write_envelope Demo.utils (Demo.session_writer Demo.args)
                             UnregisterPrep))] |}).
Proof.
  apply (proj1 (@by_args_writer_asks_then_decides Demo.utils Demo.platform Demo.args
                  Demo.world0 (Demo.loaded Demo.world0)
                  (Demo.session_writer Demo.args) UnregisterPrep "n" [""]
                  ltac:(vm_compute; reflexivity) eq_refl eq_refl) eq_refl).
Defined.

Lemma by_args_writer_auto_yes_witness :
  (@run_write_op Demo.utils Demo.platform (Demo.session_writer Demo.args_yes)
     (SetPrep (VDict ∅)) (Demo.loaded Demo.world0)).1
  = Ret (VStr "0xa1b2") ∧
  stdin (console
           (@run_write_op Demo.utils Demo.platform (Demo.session_writer Demo.args_yes)
              (SetPrep (VDict ∅)) (Demo.loaded Demo.world0)).2)
  = ["n"; ""].
Proof.
  rewrite (@by_args_writer_auto_yes Demo.utils Demo.platform Demo.args_yes
             Demo.world0 (Demo.loaded Demo.world0)
             (Demo.session_writer Demo.args_yes) (SetPrep (VDict ∅))
             (VStr "signature")
             ltac:(vm_compute; reflexivity) ltac:(vm_compute; reflexivity) eq_refl).
  split; reflexivity.
Defined.

Lemma by_args_url_resolved_twice_witness :
  ∃ reader : PrepReader.t,
    @create_reader_by_args Demo.utils Demo.platform Demo.args Demo.world0
    = (Ret reader, Demo.world0) ∧
    PrepReader._nid reader = VInt 2 ∧
    PrepReader._from reader = VStr "hx0000000000000000000000000000000000000000".
Proof.
  pose proof (@by_args_url_resolved_twice Demo.utils Demo.platform Demo.args
                {[ "url" := VStr "B" ]} (VStr "B") (VInt 2) (VStr "ks.json")
                Demo.world0) as W.
  destruct W as [(reader & Hcreate & _ & Hnid & Hfrom) _];
    [vm_compute; reflexivity ..|].
  exists reader. split; [exact Hcreate|]. split; [exact Hnid | exact Hfrom].
Defined.

Lemma by_args_reader_prints_then_queries_witness :
  (@PrepReader.get_preps Demo.utils Demo.platform Demo.session_reader VNone
     Demo.world0).1
  = Ret (VDict {[ "name" := VStr "node" ]}).
Proof.
  rewrite (proj2 (@by_args_reader_prints_then_queries Demo.utils Demo.platform
                    Demo.args Demo.world0 Demo.world0 Demo.session_reader
                    ltac:(vm_compute; reflexivity)) VNone).
  reflexivity.
Defined.

(** C1 as it is worded fails where signing raises: the callback approves the
    envelope, the envelope is signed once, and [send_transaction] is not
    called; the exception of signing is the outcome. *)
Lemma write_approved_signing_raises_counterexample :
  PrepWriter.on_send_request Demo.locked_writer = Some Demo.approve ∧
  Demo.approve
    (@tx_to_dict Demo.platform
       (@write_envelope Demo.utils Demo.locked_writer UnregisterPrep))
    (console Demo.world0)
  = (Ret (VBool true), console Demo.world0) ∧
  truthy (VBool true) = true ∧
  count is_sign
    (new_events (@run_write_op Demo.utils Demo.platform Demo.locked_writer UnregisterPrep)
       Demo.world0) = 1%nat ∧
  count is_send
    (new_events (@run_write_op Demo.utils Demo.platform Demo.locked_writer UnregisterPrep)
       Demo.world0) = 0%nat ∧
  count is_send
    (new_events (@run_write_op Demo.utils Demo.platform Demo.locked_writer UnregisterPrep)
       Demo.world0) ≠ 1%nat ∧
  (@run_write_op Demo.utils Demo.platform Demo.locked_writer UnregisterPrep
     Demo.world0).1
  = Raise (Error "DataTypeException" (VStr "Cannot sign")).
Proof. repeat split; try (vm_compute; reflexivity). vm_compute. discriminate. Qed.
